(** * onnx2pytorch: the operator-translation pass [convert_operations]

    A shallow embedding of [onnx2pytorch/convert/operations.py] and the
    properties of its dispatch, its MatMul+Add fusion and its Sub/Div
    constant folding.

    The pass is a Python generator that walks [onnx_model.graph.node] by
    position while the MatMul branch mutates that very sequence.  It is
    embedded as a state-and-exception monad over the node sequence and the
    text printed so far, and a cursor loop over that state. *)

From Stdlib Require Import ZArith String Ascii List Lia.
From stdpp Require Import base gmap list strings.

Local Open Scope string_scope.
Local Open Scope Z_scope.

(** ** Python values the pass manipulates *)

(** [str.lower()], on the ASCII letters operator kinds are written in. *)
Definition ascii_lower (c : ascii) : ascii :=
  let n := nat_of_ascii c in
  if ((65 <=? n)%nat && (n <=? 90)%nat)%bool then ascii_of_nat (n + 32) else c.

Fixpoint lower (s : string) : string :=
  match s with
  | EmptyString => EmptyString
  | String c r => String (ascii_lower c) (lower r)
  end.

(** ["{}_{}".format(a, b)] *)
Definition format_name (a b : string) : string := a ++ "_" ++ b.

(** A dense tensor: its shape and its elements in row-major order.  The
    pass never computes with the elements, it only moves them; an element
    is carried as its bit pattern. *)
Record Tensor := { t_shape : list nat; t_data : list Z }.

(** An initializer ([onnx.TensorProto]): name, dims, raw data. *)
Record TensorProto := { tp_name : string; tp_dims : list nat; tp_raw : list Z }.

(** [numpy_helper.to_array] followed by [torch.from_numpy]. *)
Definition to_array (p : TensorProto) : Tensor :=
  {| t_shape := tp_dims p; t_data := tp_raw p |}.

(** A decoded attribute value, as the attribute extractor hands it over. *)
Inductive AttrValue :=
| AInt (z : Z)
| AInts (zs : list Z)
| ABool (b : bool)
| AFloat (bits : Z)
| AStr (s : string)
| AArray (t : Tensor).

(** A graph node ([onnx.NodeProto]). *)
Record Node := {
  op_type : string;
  input : list string;
  output : list string;
  attribute : list (string * AttrValue)
}.

Record ModelProto := {
  graph_node : list Node;
  graph_initializer : list TensorProto;
  opset_import : list Z
}.

(** Where an [IndexError] was raised. *)
Inductive IndexSite :=
| AtOpsetImport      (* onnx_model.opset_import[0] *)
| AtGraphNode        (* onnx_model.graph.node[k] *)
| AtNodeInput        (* node.input[k] *)
| AtNodeOutput       (* node.output[0] *)
| AtOutputPop        (* node.output.pop() on an empty field *)
| AtShape.           (* weight.shape[k] *)

Inductive Exn :=
| IndexError (site : IndexSite)
| KeyError (key : string)
| TypeError (what : string)
| RuntimeError (what : string)
| NotImplementedError (msg : string)
| ExternalError (what : string).

Definition result (A : Type) : Type := Exn + A.

(** [l[k]] for a Python integer [k]: negative positions count from the end. *)
Definition py_getitem {A} (l : list A) (k : Z) : option A :=
  let n := Z.of_nat (length l) in
  if (0 <=? k) && (k <? n) then l !! Z.to_nat k
  else if (- n <=? k) && (k <? 0) then l !! Z.to_nat (n + k)
  else None.

(** [l.pop()]: the sequence without its last element, [None] when empty. *)
Definition py_pop_last {A} (l : list A) : option (list A) :=
  match l with
  | [] => None
  | _ => Some (removelast l)
  end.

(** [l.pop(k)] for a position [k >= 0]: [None] when out of range. *)
Definition py_pop_at {A} (l : list A) (k : nat) : option (list A) :=
  if (k <? length l)%nat then Some (delete k l) else None.

(** ** Tensors: [shape[k]] and [t()] *)

Definition shape_at (t : Tensor) (k : nat) : result nat :=
  match t_shape t !! k with
  | Some d => inr d
  | None => inl (IndexError AtShape)
  end.

(** Row-major data of the transpose of an [r] by [c] matrix. *)
Definition transpose_data (r c : nat) (d : list Z) : list Z :=
  flat_map (fun j => map (fun i => nth (i * c + j)%nat d 0) (seq 0 r)) (seq 0 c).

Definition transpose (r c : nat) (w : Tensor) : Tensor :=
  {| t_shape := [c; r]; t_data := transpose_data r c (t_data w) |}.

(** [torch.Tensor.t]: transposes a matrix, returns a tensor of lower rank
    as it is, and refuses more than two dimensions. *)
Definition t_ (w : Tensor) : result Tensor :=
  match t_shape w with
  | [] | [_] => inr w
  | [r; c] => inr (transpose r c w)
  | _ => inl (RuntimeError "t() expects a tensor with <= 2 dimensions")
  end.

(** ** Executable units *)

(** [nn.Linear(in_features, out_features, bias=...)] with its bound tensors. *)
Record Linear := {
  in_features : nat;
  out_features : nat;
  weight : Tensor;
  bias : option Tensor
}.

Definition set_bias (op : Linear) (b : Tensor) : Linear :=
  {| in_features := in_features op; out_features := out_features op;
     weight := weight op; bias := Some b |}.

Definition Attrs : Type := gmap string AttrValue.

(** The weight index [{tensor.name: tensor for tensor in initializer}]:
    a later initializer of the same name replaces an earlier one. *)
Definition build_weights (init : list TensorProto) : gmap string TensorProto :=
  foldl (fun m t => <[tp_name t := t]> m) ∅ init.

(** A call with the keywords [fixed] written out and the mapping [attrs]
    unpacked after them: a keyword given twice is a [TypeError]. *)
Definition kwcall (fixed : list (string * AttrValue)) (attrs : Attrs) : result Attrs :=
  if forallb (fun kv => bool_decide (attrs !! kv.1 = None)) fixed
  then inr (foldr (fun kv m => <[kv.1 := kv.2]> m) attrs fixed)
  else inl (TypeError "got multiple values for keyword argument").

Definition with_output (n : Node) (outs : list string) : Node :=
  {| op_type := op_type n; input := input n; output := outs;
     attribute := attribute n |}.

(** ** The generator's state and its exceptions *)

(** The two things the generator changes as it runs: the node sequence of
    the model and the text printed. *)
Record State := { st_nodes : list Node; st_stdout : list string }.

Definition M (A : Type) : Type := State -> result A * State.

Definition ret {A} (a : A) : M A := fun s => (inr a, s).
Definition raise {A} (e : Exn) : M A := fun s => (inl e, s).
Definition bind {A B} (m : M A) (k : A -> M B) : M B :=
  fun s => match m s with
           | (inr a, s') => k a s'
           | (inl e, s') => (inl e, s')
           end.
Definition lift {A} (r : result A) : M A :=
  match r with inr a => ret a | inl e => raise e end.
Definition or_raise {A} (o : option A) (e : Exn) : M A :=
  match o with Some a => ret a | None => raise e end.

Notation "'let!' x ':=' e 'in' k" := (bind e (fun x => k))
  (at level 10, x name, e at level 100, k at level 200, only parsing).
Notation "e ';;' k" := (bind e (fun _ => k))
  (at level 100, k at level 200, right associativity, only parsing).

(** A computation that leaves the node sequence as it found it, whatever
    its outcome. *)
Definition keeps_nodes {A} (m : M A) : Prop :=
  forall s r s', m s = (r, s') -> st_nodes s' = st_nodes s.

(** A computation that prints nothing, whatever its outcome. *)
Definition keeps_stdout {A} (m : M A) : Prop :=
  forall s r s', m s = (r, s') -> st_stdout s' = st_stdout s.

Create HintDb keeps.
Create HintDb quiet.

(** ** A concrete setting to run the pass in

    Collaborators that always succeed: the attribute extractor returns the
    declared attributes as they are, a layer builder returns the kind it was
    asked for, and [torch] has three attributes. *)

Module Demo.

Definition extract_attributes (n : Node) : result Attrs :=
  inr (list_to_map (attribute n)).
Definition convert_layer (n : Node) (kind : string) (p : option (list TensorProto))
  : result string := inr kind.
Definition convert_linear_layer (n : Node) (p : list TensorProto) : result string :=
  inr "Linear".
Definition convert_batch_norm_layer (n : Node) (p : list TensorProto) : result string :=
  inr "BatchNorm".
Definition convert_instance_norm_layer (n : Node) (p : list TensorProto)
  : result string := inr "InstanceNorm".
Definition torch_has (name : string) : bool :=
  existsb (String.eqb name) ["abs"; "sin"; "cos"].

Definition node (kind : string) (ins outs : list string) : Node :=
  {| op_type := kind; input := ins; output := outs; attribute := [] |}.

(** A 2 by 3 weight and a bias of 3 elements. *)
Definition W : TensorProto :=
  {| tp_name := "W"; tp_dims := [2; 3]%nat; tp_raw := [1; 2; 3; 4; 5; 6] |}.
Definition b : TensorProto :=
  {| tp_name := "b"; tp_dims := [3]%nat; tp_raw := [7; 8; 9] |}.

Definition const_node : Node :=
  {| op_type := "Constant"; input := []; output := ["c"];
     attribute := [("constant", AArray (to_array b))] |}.

Definition model (nodes : list Node) : ModelProto :=
  {| graph_node := nodes; graph_initializer := [W; b]; opset_import := [11] |}.

Definition state (nodes : list Node) : State :=
  {| st_nodes := nodes; st_stdout := [] |}.

End Demo.

(** ** The pass *)

Section Convert.

(** The collaborators the pass calls and does not define: the attribute
    extractor, the four layer builders (their results are of an opaque type
    [Layer]), and the attribute table of the [torch] module. *)
Variable Layer : Type.
Variable extract_attributes : Node -> result Attrs.
Variable convert_layer : Node -> string -> option (list TensorProto) -> result Layer.
Variable convert_linear_layer : Node -> list TensorProto -> result Layer.
Variable convert_batch_norm_layer : Node -> list TensorProto -> result Layer.
Variable convert_instance_norm_layer : Node -> list TensorProto -> result Layer.
(** [torch_has name]: [getattr(torch, name, None)] is not [None]. *)
Variable torch_has : string -> bool.

(** What the pass yields as [op].  [OpTorch name] is the attribute
    [torch.<name>] itself; [OpModule cls kwargs] is the class [cls] of
    [torch.nn] or of [onnx2pytorch.operations] called with the keyword
    arguments [kwargs]; [OpPartial fn kwargs] is [functools.partial] of
    [fn] and the keyword arguments [kwargs].  [OpSub y] and [OpDiv y] are
    the classes [Sub] and [Div] of [onnx2pytorch.operations] constructed
    over the tensor [y], which they keep as their right-hand operand. *)
Inductive Op :=
| OpLayer (l : Layer)
| OpGemm (l : Layer) (feature_dim : Z)
| OpModule (cls : string) (kwargs : Attrs)
| OpPartial (fn : string) (kwargs : Attrs)
| OpValueWrapper (v : Tensor)
| OpReshape (shape : option Tensor)
| OpTorch (name : string)
| OpWrapper (name : string)
| OpDiv (y : Tensor)
| OpSub (y : Tensor)
| OpLinear (lin : Linear).

(** [(op_id, op_name, op)] *)
Definition Triple : Type := string * string * Op.

(** [onnx_model.graph.node[k]] *)
Definition graph_node_at (k : Z) : M Node :=
  fun s => or_raise (py_getitem (st_nodes s) k) (IndexError AtGraphNode) s.

(** In-place change of the [output] field of the node object stored at
    position [i]. *)
Definition set_output (i : nat) (outs : list string) : M unit :=
  fun s =>
    match st_nodes s !! i with
    | Some n =>
        (inr tt, {| st_nodes := <[i := with_output n outs]> (st_nodes s);
                    st_stdout := st_stdout s |})
    | None => (inl (IndexError AtGraphNode), s)
    end.

(** [node.output.pop()], [node] being the object at position [i]. *)
Definition output_pop (i : nat) : M unit :=
  let! n := graph_node_at (Z.of_nat i) in
  let! outs := or_raise (py_pop_last (output n)) (IndexError AtOutputPop) in
  set_output i outs.

(** [node.output.extend(more)] *)
Definition output_extend (i : nat) (more : list string) : M unit :=
  let! n := graph_node_at (Z.of_nat i) in
  set_output i (output n ++ more).

(** [onnx_model.graph.node.pop(k)] *)
Definition graph_node_pop (k : nat) : M unit :=
  fun s =>
    match py_pop_at (st_nodes s) k with
    | Some l => (inr tt, {| st_nodes := l; st_stdout := st_stdout s |})
    | None => (inl (IndexError AtGraphNode), s)
    end.

Definition print (line : string) : M unit :=
  fun s => (inr tt, {| st_nodes := st_nodes s; st_stdout := st_stdout s ++ [line] |}).

(** [extract_attributes(n)["constant"]] turned into a tensor. *)
Definition constant_of (n : Node) : result Tensor :=
  match extract_attributes n with
  | inl e => inl e
  | inr kw =>
      match kw !! "constant" with
      | None => inl (KeyError "constant")
      | Some (AArray t) => inr t
      | Some _ => inl (TypeError "expected np.ndarray")
      end
  end.

(** [cls] called with the keywords [fixed] and then the unpacked
    [extract_attributes(node)]. *)
Definition module_of (cls : string) (fixed : list (string * AttrValue)) (n : Node)
  : result Op :=
  match extract_attributes n with
  | inl e => inl e
  | inr kw => match kwcall fixed kw with
              | inl e => inl e
              | inr kw' => inr (OpModule cls kw')
              end
  end.

Definition partial_of (fn : string) (n : Node) : result Op :=
  match extract_attributes n with
  | inl e => inl e
  | inr kw => inr (OpPartial fn kw)
  end.

Definition layer_op (r : result Layer) : result Op :=
  match r with inl e => inl e | inr l => inr (OpLayer l) end.

(** The arguments of [convert_operations]. *)
Variable onnx_model : ModelProto.
Variable batch_dim : Z.

Definition weights : gmap string TensorProto :=
  build_weights (graph_initializer onnx_model).

Definition initializer : list TensorProto := graph_initializer onnx_model.

(** [[weights[par_name] for par_name in names if par_name in weights]] *)
Definition resolve (names : list string) : list TensorProto :=
  omap (fun par_name => weights !! par_name) names.

(** The Reshape branch.  [filter] calls its lambda once per initializer,
    so [node.input[1]] is only read when there is an initializer. *)
Definition reshape_shape (n : Node) : result (option Tensor) :=
  match initializer with
  | [] => inr None
  | _ =>
      match input n !! 1%nat with
      | None => inl (IndexError AtNodeInput)
      | Some name1 =>
          inr (to_array <$>
                 head (filter (fun x => tp_name x = name1) initializer))
      end
  end.

(** The affine unit of a MatMul with a constant operand, before the
    lookahead (the lines between [if params:] and the comment on Add). *)
Definition build_affine (n : Node) (p0 : TensorProto) : result Linear :=
  let w := to_array p0 in
  match input n !! 0%nat with
  | None => inl (IndexError AtNodeInput)
  | Some name0 =>
      if bool_decide (is_Some (weights !! name0)) then
        match shape_at w 1 with
        | inl e => inl e
        | inr d1 =>
            match shape_at w 0 with
            | inl e => inl e
            | inr d0 =>
                inr {| in_features := d1; out_features := d0;
                       weight := w; bias := None |}
            end
        end
      else
        match shape_at w 0 with
        | inl e => inl e
        | inr d0 =>
            match shape_at w 1 with
            | inl e => inl e
            | inr d1 =>
                match t_ w with
                | inl e => inl e
                | inr wt =>
                    inr {| in_features := d0; out_features := d1;
                           weight := wt; bias := None |}
                end
            end
        end
  end.

(** The MatMul branch. *)
Definition matmul_op (i : nat) (node : Node) : M Op :=
  match resolve (input node) with
  | [] => ret (OpTorch "matmul")
  | p0 :: _ =>
      let! op := lift (build_affine node p0) in
      (* check if next node Add to add bias *)
      let! next_node := graph_node_at (Z.of_nat i + 1) in
      match resolve (input next_node) with
      | b :: _ =>
          if String.eqb (op_type next_node) "Add" then
            let op := set_bias op (to_array b) in
            output_pop i ;;
            output_extend i (output next_node) ;;
            graph_node_pop (i + 1) ;;
            ret (OpLinear op)
          else ret (OpLinear op)
      | [] => ret (OpLinear op)
      end
  end.

(** The Div and Sub branches: [special] over the constant of the node at
    position [i - 1], or else the attribute [torch.<generic>]. *)
Definition fold_constant_op (special : Tensor -> Op) (generic : string) (i : nat)
  : M Op :=
  let! prev := graph_node_at (Z.of_nat i - 1) in
  if String.eqb (op_type prev) "Constant" then
    let! y := lift (constant_of prev) in
    ret (special y)
  else ret (OpTorch generic).

(** The Split branch. *)
Definition split_op (node : Node) : result Op :=
  match extract_attributes node with
  | inl e => inl e
  | inr kwargs =>
      let kwargs :=
        match kwargs !! "split_size_or_sections" with
        | None => <["number_of_splits" := AInt (Z.of_nat (length (output node)))]> kwargs
        | Some _ => kwargs
        end in
      inr (OpModule "Split" kwargs)
  end.

(** The last branch: no rule for the operator kind. *)
Definition fallback_op (node : Node) : M Op :=
  if torch_has (lower (op_type node)) then
    print ("Automatic inference of operator: " ++ lower (op_type node)) ;;
    ret (OpTorch (lower (op_type node)))
  else
    raise (NotImplementedError
             ("Conversion not implemented for op_type=" ++ op_type node ++ ".")).

Definition is_kind (node : Node) (kind : string) : bool :=
  String.eqb (op_type node) kind.

(** The conditional on [node.op_type], branch by branch: the value of [op]. *)
Definition dispatch (opset_version : Z) (i : nat) (node : Node) : M Op :=
  (* extract only useful inputs *)
  let params := resolve (input node) in
  if is_kind node "Conv" then
    lift (layer_op (convert_layer node "Conv" (Some params)))
  else if is_kind node "Relu" then
    ret (OpModule "nn.ReLU" {["inplace" := ABool true]})
  else if is_kind node "LeakyRelu" then
    lift (module_of "nn.LeakyReLU" [("inplace", ABool true)] node)
  else if is_kind node "Elu" then
    lift (module_of "nn.ELU" [("inplace", ABool true)] node)
  else if is_kind node "Sigmoid" then
    ret (OpModule "nn.Sigmoid" ∅)
  else if is_kind node "MaxPool" then
    lift (layer_op (convert_layer node "MaxPool" None))
  else if is_kind node "AveragePool" then
    lift (layer_op (convert_layer node "AvgPool" None))
  else if is_kind node "Flatten" then
    lift (module_of "Flatten" [] node)
  else if is_kind node "Gemm" then
    let! op := lift (convert_linear_layer node params) in
    ret (OpGemm op (batch_dim + 1))
  else if is_kind node "BatchNormalization" then
    lift (layer_op (convert_batch_norm_layer node params))
  else if is_kind node "InstanceNormalization" then
    lift (layer_op (convert_instance_norm_layer node params))
  else if is_kind node "Concat" then
    lift (partial_of "torch.cat" node)
  else if is_kind node "Constant" then
    let! v := lift (constant_of node) in
    ret (OpValueWrapper v)
  else if is_kind node "Reshape" then
    let! shape := lift (reshape_shape node) in
    ret (OpReshape shape)
  else if is_kind node "Shape" then
    ret (OpModule "Shape" ∅)
  else if is_kind node "Expand" then
    ret (OpModule "Expand" ∅)
  else if is_kind node "Gather" then
    lift (module_of "Gather" [] node)
  else if is_kind node "Squeeze" then
    lift (module_of "Squeeze" [("opset_version", AInt opset_version)] node)
  else if is_kind node "Unsqueeze" then
    lift (module_of "Unsqueeze" [("opset_version", AInt opset_version)] node)
  else if is_kind node "ConstantOfShape" then
    lift (module_of "ConstantOfShape" [] node)
  else if is_kind node "Range" then
    ret (OpModule "Range" ∅)
  else if is_kind node "Slice" then
    lift (module_of "Slice" [] node)
  else if is_kind node "Cast" then
    lift (module_of "Cast" [] node)
  else if is_kind node "Where" then
    ret (OpTorch "where")
  else if is_kind node "Equal" then
    ret (OpTorch "eq")
  else if is_kind node "Mul" then
    ret (OpTorch "mul")
  else if is_kind node "Div" then
    fold_constant_op OpDiv "true_divide" i
  else if is_kind node "MatMul" then
    matmul_op i node
  else if is_kind node "Sub" then
    fold_constant_op OpSub "sub" i
  else if is_kind node "Pow" then
    ret (OpTorch "pow")
  else if is_kind node "Sqrt" then
    ret (OpTorch "sqrt")
  else if is_kind node "Softmax" then
    lift (module_of "nn.Softmax" [] node)
  else if is_kind node "Transpose" then
    lift (partial_of "torch.Tensor.permute" node)
  else if is_kind node "Split" then
    lift (split_op node)
  else if is_kind node "ReduceMean" then
    let! kw := lift (extract_attributes node) in
    (* dict(keepdim=True) updated with the extracted attributes *)
    ret (OpPartial "torch.mean" (kw ∪ {["keepdim" := ABool true]}))
  else if is_kind node "Add" then
    ret (OpModule "Add" {["feature_dim" := AInt (batch_dim + 1)]})
  else if is_kind node "GlobalAveragePool" then
    ret (OpModule "GlobalAveragePool" ∅)
  else if is_kind node "ConvTranspose" then
    lift (layer_op (convert_layer node "ConvTranspose" (Some params)))
  else if is_kind node "Identity" then
    ret (OpModule "nn.Identity" ∅)
  else if is_kind node "Resize" then
    lift (module_of "Resize" [] node)
  else if is_kind node "Upsample" then
    lift (module_of "Upsample" [] node)
  else if is_kind node "OneHot" then
    lift (module_of "OneHot" [] node)
  else if is_kind node "Pad" then
    lift (module_of "Pad" [] node)
  else if is_kind node "Clip" then ret (OpWrapper "clamp")
  else if is_kind node "Tanh" then ret (OpWrapper "tanh")
  else if is_kind node "Erf" then ret (OpWrapper "erf")
  else if is_kind node "Log" then ret (OpWrapper "log")
  else if is_kind node "Exp" then ret (OpWrapper "exp")
  else if is_kind node "Reciprocal" then ret (OpWrapper "reciprocal")
  else if is_kind node "And" then ret (OpWrapper "logical_and")
  else if is_kind node "Or" then ret (OpWrapper "logical_or")
  else if is_kind node "Not" then ret (OpWrapper "logical_not")
  else fallback_op node.

(** One turn of the [for] loop at position [i]: the branch, then the
    naming lines.  [node] is the object stored at position [i], so the
    naming lines read the outputs the MatMul branch may have rewritten. *)
Definition body (opset_version : Z) (i : nat) (node : Node) : M Triple :=
  let! op := dispatch opset_version i node in
  let! node := graph_node_at (Z.of_nat i) in
  let! op_id := or_raise (output node !! 0%nat) (IndexError AtNodeOutput) in
  ret (op_id, format_name (op_type node) op_id, op).

(** What a consumer that drains the generator observes. *)
Inductive Status := Done | Raised (e : Exn) | OutOfFuel.

Record Run := { emitted : list Triple; final : State; status : Status }.

Definition yield (t : Triple) (r : Run) : Run :=
  {| emitted := t :: emitted r; final := final r; status := status r |}.

(** [for i, node in enumerate(onnx_model.graph.node)]: the iterator reads
    position [i] of the sequence as it is at that moment and stops when
    there is none. *)
Fixpoint loop (opset_version : Z) (fuel : nat) (i : nat) (s : State) : Run :=
  match fuel with
  | O => {| emitted := []; final := s; status := OutOfFuel |}
  | S fuel' =>
      match st_nodes s !! i with
      | None => {| emitted := []; final := s; status := Done |}
      | Some node =>
          match body opset_version i node s with
          | (inl e, s') => {| emitted := []; final := s'; status := Raised e |}
          | (inr t, s') => yield t (loop opset_version fuel' (S i) s')
          end
      end
  end.

(** The explicit rules of the conditional, in its order. *)
Definition explicit_kinds : list string :=
  ["Conv"; "Relu"; "LeakyRelu"; "Elu"; "Sigmoid"; "MaxPool"; "AveragePool";
   "Flatten"; "Gemm"; "BatchNormalization"; "InstanceNormalization"; "Concat";
   "Constant"; "Reshape"; "Shape"; "Expand"; "Gather"; "Squeeze"; "Unsqueeze";
   "ConstantOfShape"; "Range"; "Slice"; "Cast"; "Where"; "Equal"; "Mul"; "Div";
   "MatMul"; "Sub"; "Pow"; "Sqrt"; "Softmax"; "Transpose"; "Split";
   "ReduceMean"; "Add"; "GlobalAveragePool"; "ConvTranspose"; "Identity";
   "Resize"; "Upsample"; "OneHot"; "Pad"; "Clip"; "Tanh"; "Erf"; "Log"; "Exp";
   "Reciprocal"; "And"; "Or"; "Not"].

(** The kinds whose branch calls no collaborator and reads no other node. *)
Definition plain_kinds : list string :=
  ["Relu"; "Sigmoid"; "Shape"; "Expand"; "Range"; "Where"; "Equal"; "Mul";
   "Pow"; "Sqrt"; "Add"; "GlobalAveragePool"; "Identity"; "Clip"; "Tanh";
   "Erf"; "Log"; "Exp"; "Reciprocal"; "And"; "Or"; "Not"].

Definition is_explicit (kind : string) : bool :=
  existsb (String.eqb kind) explicit_kinds.

(** [node.output[0]] when there is one, and the identifier of a triple. *)
Definition first_output (n : Node) : option string := output n !! 0%nat.
Definition op_id (t : Triple) : string := t.1.1.

(** The triple [t] is the one the naming lines give for the node [n]. *)
Definition names_node (t : Triple) (n : Node) : Prop :=
  first_output n = Some (op_id t) /\ t.1.2 = format_name (op_type n) (op_id t).

(** What the pass never rewrites in a node: all but its output names. *)
Definition node_sig (n : Node) : string * list string * list (string * AttrValue) :=
  (op_type n, input n, attribute n).

Definition initial_state : State :=
  {| st_nodes := graph_node onnx_model; st_stdout := [] |}.

(** [convert_operations(onnx_model, batch_dim)], drained.  Each turn of the
    loop advances the cursor and never lengthens the sequence, so one more
    turn than there are nodes is enough fuel. *)
Definition convert_operations : Run :=
  match opset_import onnx_model !! 0%nat with
  | None => {| emitted := []; final := initial_state;
               status := Raised (IndexError AtOpsetImport) |}
  | Some opset_version =>
      loop opset_version (S (length (graph_node onnx_model))) 0 initial_state
  end.

(** ** The monad, operation by operation *)

Lemma lift_run {A} (r : result A) (s : State) :
  lift r s = (match r with inr a => inr a | inl e => inl e end, s).
Proof. by destruct r. Qed.

Lemma py_getitem_nat {A} (l : list A) (k : nat) :
  py_getitem l (Z.of_nat k) = l !! k.
Proof.
  unfold py_getitem.
  destruct (Z.leb_spec 0 (Z.of_nat k)); [|lia]. simpl.
  destruct (Z.ltb_spec (Z.of_nat k) (Z.of_nat (length l))).
  - by rewrite Nat2Z.id.
  - destruct (Z.ltb_spec (Z.of_nat k) 0); [lia|].
    rewrite andb_false_r. symmetry. apply lookup_ge_None. lia.
Qed.

Lemma py_getitem_succ {A} (l : list A) (k : nat) :
  py_getitem l (Z.of_nat k + 1) = l !! S k.
Proof. replace (Z.of_nat k + 1) with (Z.of_nat (S k)) by lia. apply py_getitem_nat. Qed.

Lemma py_getitem_pred {A} (l : list A) (k : nat) :
  (1 <= k)%nat -> py_getitem l (Z.of_nat k - 1) = l !! (k - 1)%nat.
Proof.
  intros. replace (Z.of_nat k - 1) with (Z.of_nat (k - 1)) by lia.
  apply py_getitem_nat.
Qed.

(** Position [-1] is the last element. *)
Lemma py_getitem_minus_one {A} (l : list A) :
  py_getitem l (Z.of_nat 0 - 1) = last l.
Proof.
  unfold py_getitem. change (Z.of_nat 0 - 1) with (-1).
  destruct l as [|a l]; [done|].
  destruct (Z.leb_spec (- Z.of_nat (length (a :: l))) (-1));
    [|rewrite length_cons in *; lia].
  change (0 <=? -1) with false. change (-1 <? 0) with true. cbn [andb].
  rewrite last_lookup. f_equal. rewrite length_cons. lia.
Qed.

(** ** The transpose moves element [(i, j)] to [(j, i)] *)

Lemma length_flat_map_rows {A B} (f : A -> list B) (r : nat) (l : list A) :
  (forall j, length (f j) = r) -> length (flat_map f l) = (length l * r)%nat.
Proof.
  intros Hlen. induction l as [|x l IH]; [done|].
  simpl. rewrite length_app, Hlen, IH. lia.
Qed.

Lemma nth_flat_map_rows {A} (f : nat -> list A) (r : nat) (d : A) :
  (forall j, length (f j) = r) ->
  forall n a i j, (j < n)%nat -> (i < r)%nat ->
    nth (j * r + i) (flat_map f (seq a n)) d = nth i (f (a + j)%nat) d.
Proof.
  intros Hlen. induction n as [|n IH]; intros a i j Hj Hi; [lia|].
  simpl. destruct j as [|j].
  - rewrite app_nth1 by (rewrite Hlen; lia). simpl. by rewrite Nat.add_0_r.
  - rewrite app_nth2 by (rewrite Hlen; lia). rewrite Hlen.
    replace (S j * r + i - r)%nat with (j * r + i)%nat by lia.
    rewrite IH by lia. f_equal. f_equal. lia.
Qed.

Lemma transpose_data_length r c d : length (transpose_data r c d) = (c * r)%nat.
Proof.
  unfold transpose_data.
  rewrite (length_flat_map_rows _ r) by (by intros; rewrite length_map, length_seq).
  by rewrite length_seq.
Qed.

Lemma transpose_data_nth r c d i j :
  (i < r)%nat -> (j < c)%nat ->
  nth (j * r + i) (transpose_data r c d) 0 = nth (i * c + j) d 0.
Proof.
  intros Hi Hj. unfold transpose_data.
  rewrite (nth_flat_map_rows _ r) by (by intros; rewrite ?length_map, ?length_seq).
  simpl.
  rewrite (nth_indep _ 0 (nth (0 * c + j) d 0))
    by (rewrite length_map, length_seq; lia).
  rewrite (map_nth (fun i0 => nth (i0 * c + j) d 0) (seq 0 r) 0%nat i).
  by rewrite seq_nth.
Qed.

(** ** The conditional, kind by kind *)

Lemma dispatch_MatMul v i node :
  op_type node = "MatMul" -> dispatch v i node = matmul_op i node.
Proof. unfold dispatch, is_kind. intros ->. reflexivity. Qed.

Lemma dispatch_Sub v i node :
  op_type node = "Sub" -> dispatch v i node = fold_constant_op OpSub "sub" i.
Proof. unfold dispatch, is_kind. intros ->. reflexivity. Qed.

Lemma dispatch_Div v i node :
  op_type node = "Div" ->
  dispatch v i node = fold_constant_op OpDiv "true_divide" i.
Proof. unfold dispatch, is_kind. intros ->. reflexivity. Qed.

Lemma dispatch_Split v i node :
  op_type node = "Split" -> dispatch v i node = lift (split_op node).
Proof. unfold dispatch, is_kind. intros ->. reflexivity. Qed.

Lemma dispatch_fallback v i node :
  is_explicit (op_type node) = false -> dispatch v i node = fallback_op node.
Proof.
  unfold is_explicit, explicit_kinds, dispatch, is_kind. cbn [existsb].
  intros H.
  repeat (apply orb_false_elim in H; destruct H as [-> H]).
  reflexivity.
Qed.

Lemma resolve_nil (names : list string) :
  resolve names = [] <-> Forall (fun name => weights !! name = None) names.
Proof.
  unfold resolve. induction names as [|x l IH]; simpl.
  - split; [constructor | done].
  - destruct (weights !! x) eqn:E; split.
    + done.
    + intros H. inversion H; congruence.
    + intros H. constructor; [done | by apply IH].
    + intros H. inversion H. by apply IH.
Qed.

Lemma fold_constant_op_run special generic i s prev :
  py_getitem (st_nodes s) (Z.of_nat i - 1) = Some prev ->
  fold_constant_op special generic i s =
    if String.eqb (op_type prev) "Constant" then
      (match constant_of prev with
       | inr y => inr (special y)
       | inl e => inl e
       end, s)
    else (inr (OpTorch generic), s).
Proof.
  intros H. unfold fold_constant_op, bind, graph_node_at. rewrite H. simpl.
  destruct (String.eqb (op_type prev) "Constant"); [|done].
  rewrite lift_run. by destruct (constant_of prev).
Qed.

(** The naming lines after a branch that left the state alone. *)
Lemma body_of_dispatch v i s node op s' o outs :
  dispatch v i node s = (inr op, s') ->
  st_nodes s' !! i = Some node ->
  output node = o :: outs ->
  body v i node s = (inr (o, format_name (op_type node) o, op), s').
Proof.
  intros Hd Hn Ho. unfold body, bind. rewrite Hd.
  unfold graph_node_at. rewrite py_getitem_nat, Hn. simpl.
  by rewrite Ho.
Qed.

Lemma loop_step v fuel i s node t s' :
  st_nodes s !! i = Some node ->
  body v i node s = (inr t, s') ->
  loop v (S fuel) i s = yield t (loop v fuel (S i) s').
Proof. intros Hn Hb. simpl. by rewrite Hn, Hb. Qed.

Lemma loop_raise v fuel i s node e s' :
  st_nodes s !! i = Some node ->
  body v i node s = (inl e, s') ->
  loop v (S fuel) i s = {| emitted := []; final := s'; status := Raised e |}.
Proof. intros Hn Hb. simpl. by rewrite Hn, Hb. Qed.

Lemma body_raise v i s node e s' :
  dispatch v i node s = (inl e, s') -> body v i node s = (inl e, s').
Proof. intros Hd. unfold body, bind. by rewrite Hd. Qed.

(** A node of a plain kind always gets its unit, whatever surrounds it. *)
Lemma dispatch_plain_kinds v i node :
  In (op_type node) plain_kinds ->
  exists op, forall s, dispatch v i node s = (inr op, s).
Proof.
  unfold plain_kinds. simpl. unfold dispatch, is_kind.
  intros H.
  repeat (destruct H as [<-|H]; [eexists; intros s; reflexivity|]).
  done.
Qed.

(** ** The MatMul branch in closed form *)

Lemma matmul_op_run i s node :
  st_nodes s !! i = Some node ->
  matmul_op i node s =
    match resolve (input node) with
    | [] => (inr (OpTorch "matmul"), s)
    | p0 :: _ =>
        match build_affine node p0 with
        | inl e => (inl e, s)
        | inr lin =>
            match st_nodes s !! S i with
            | None => (inl (IndexError AtGraphNode), s)
            | Some next =>
                match resolve (input next) with
                | [] => (inr (OpLinear lin), s)
                | b :: _ =>
                    if String.eqb (op_type next) "Add" then
                      match py_pop_last (output node) with
                      | None => (inl (IndexError AtOutputPop), s)
                      | Some outs =>
                          (inr (OpLinear (set_bias lin (to_array b))),
                           {| st_nodes :=
                                delete (S i)
                                  (<[i := with_output node (outs ++ output next)]>
                                     (st_nodes s));
                              st_stdout := st_stdout s |})
                      end
                    else (inr (OpLinear lin), s)
                end
            end
        end
    end.
Proof.
  intros Hn. unfold matmul_op.
  destruct (resolve (input node)) as [|p0 ps]; [done|].
  unfold bind at 1. rewrite lift_run.
  destruct (build_affine node p0) as [e|lin]; [done|].
  unfold bind at 1, graph_node_at at 1. rewrite py_getitem_succ.
  destruct (st_nodes s !! S i) as [next|] eqn:Hnext; [|done]. simpl or_raise.
  unfold ret at 1.
  destruct (resolve (input next)) as [|b bs]; [done|].
  destruct (String.eqb (op_type next) "Add"); [|done].
  unfold bind at 1, output_pop, bind at 1, graph_node_at at 1.
  rewrite py_getitem_nat, Hn. simpl or_raise. unfold ret at 1.
  unfold bind at 1.
  destruct (py_pop_last (output node)) as [outs|]; [|done].
  simpl or_raise. unfold ret at 1, set_output at 1. rewrite Hn.
  unfold bind at 1, output_extend, bind at 1, graph_node_at at 1.
  rewrite py_getitem_nat. cbn [st_nodes st_stdout].
  assert (Hlt : (i < length (st_nodes s))%nat) by (by eapply lookup_lt_Some).
  rewrite list_lookup_insert_eq by done. simpl or_raise. unfold ret at 1.
  unfold set_output at 1. cbn [st_nodes st_stdout].
  rewrite list_lookup_insert_eq by done.
  rewrite list_insert_insert_eq.
  unfold bind at 1, graph_node_pop at 1, py_pop_at. cbn [st_nodes st_stdout].
  rewrite length_insert.
  assert (Hlt' : (S i < length (st_nodes s))%nat) by (by eapply lookup_lt_Some).
  replace (i + 1)%nat with (S i) by lia.
  destruct (Nat.ltb_spec (S i) (length (st_nodes s))); [|lia].
  reflexivity.
Qed.

Lemma drop_after_fusion {A} (l : list A) (i : nat) (x : A) :
  (S i < length l)%nat ->
  drop (S i) (delete (S i) (<[i := x]> l)) = drop (S (S i)) l.
Proof.
  intros Hlt. rewrite delete_take_drop.
  rewrite drop_app_length' by (rewrite length_take_le; [done|rewrite length_insert; lia]).
  apply drop_insert_lt. lia.
Qed.

Lemma length_after_fusion {A} (l : list A) (i : nat) (x : A) :
  (S i < length l)%nat ->
  length (delete (S i) (<[i := x]> l)) = (length l - 1)%nat.
Proof.
  intros Hlt. rewrite length_delete; [by rewrite length_insert|].
  apply lookup_lt_is_Some. by rewrite length_insert.
Qed.


Lemma resolve_cons_input names w ws :
  resolve names = w :: ws -> exists name0, names !! 0%nat = Some name0.
Proof. destruct names as [|x l]; [done|]. by exists x. Qed.

Lemma build_affine_first node name0 w r c :
  input node !! 0%nat = Some name0 ->
  tp_dims w = [r; c] ->
  is_Some (weights !! name0) ->
  build_affine node w
  = inr {| in_features := c; out_features := r;
           weight := to_array w; bias := None |}.
Proof.
  intros H0 Hd Hw. unfold build_affine, shape_at, to_array. rewrite H0.
  cbn [t_shape]. rewrite Hd. by rewrite bool_decide_eq_true_2.
Qed.

Lemma build_affine_second node name0 w r c :
  input node !! 0%nat = Some name0 ->
  tp_dims w = [r; c] ->
  weights !! name0 = None ->
  build_affine node w
  = inr {| in_features := r; out_features := c;
           weight := transpose r c (to_array w); bias := None |}.
Proof.
  intros H0 Hd Hw. unfold build_affine, shape_at, t_, to_array. rewrite H0.
  cbn [t_shape]. rewrite Hd.
  rewrite bool_decide_eq_false_2; [done|]. rewrite Hw. by intros [? ?].
Qed.

Lemma build_affine_matrix node w ws r c :
  resolve (input node) = w :: ws ->
  tp_dims w = [r; c] ->
  exists lin, build_affine node w = inr lin /\ bias lin = None.
Proof.
  intros Hr Hd. destruct (resolve_cons_input _ _ _ Hr) as [name0 H0].
  destruct (weights !! name0) eqn:Hw.
  - rewrite (build_affine_first _ name0 _ r c) by (rewrite ?Hw; eauto).
    by eexists.
  - rewrite (build_affine_second _ name0 _ r c) by done. by eexists.
Qed.


(** ** Which branches touch the node sequence *)

Lemma keeps_ret {A} (a : A) : keeps_nodes (ret a).
Proof. by intros s r s' [= <- <-]. Qed.

Lemma keeps_raise {A} (e : Exn) : keeps_nodes (@raise A e).
Proof. by intros s r s' [= <- <-]. Qed.

Lemma keeps_lift {A} (r : result A) : keeps_nodes (lift r).
Proof. destruct r; [apply keeps_raise | apply keeps_ret]. Qed.

Lemma keeps_or_raise {A} (o : option A) e : keeps_nodes (or_raise o e).
Proof. destruct o; [apply keeps_ret | apply keeps_raise]. Qed.

Lemma keeps_bind {A B} (m : M A) (k : A -> M B) :
  keeps_nodes m -> (forall a, keeps_nodes (k a)) -> keeps_nodes (bind m k).
Proof.
  intros Hm Hk s r s'. unfold bind.
  destruct (m s) as [[e|a] s1] eqn:E.
  - intros [= <- <-]. by eapply Hm.
  - intros Hrun. rewrite (Hk _ _ _ _ Hrun). by eapply Hm.
Qed.

Lemma keeps_graph_node_at k : keeps_nodes (graph_node_at k).
Proof. intros s r s'. unfold graph_node_at. apply keeps_or_raise. Qed.

Lemma keeps_print line : keeps_nodes (print line).
Proof. by intros s r s' [= <- <-]. Qed.

Lemma keeps_fold_constant_op special generic i :
  keeps_nodes (fold_constant_op special generic i).
Proof.
  unfold fold_constant_op. apply keeps_bind; [apply keeps_graph_node_at|].
  intros prev. destruct (String.eqb (op_type prev) "Constant").
  - apply keeps_bind; [apply keeps_lift | intros; apply keeps_ret].
  - apply keeps_ret.
Qed.

Lemma keeps_fallback_op node : keeps_nodes (fallback_op node).
Proof.
  unfold fallback_op. destruct (torch_has (lower (op_type node))).
  - apply keeps_bind; [apply keeps_print | intros; apply keeps_ret].
  - apply keeps_raise.
Qed.

#[local] Hint Resolve keeps_ret keeps_raise keeps_lift keeps_bind
  keeps_fold_constant_op keeps_fallback_op : keeps.

(** Every branch but MatMul leaves the node sequence alone. *)
Lemma dispatch_keeps_nodes v i node :
  op_type node <> "MatMul" -> keeps_nodes (dispatch v i node).
Proof.
  intros Hk. apply String.eqb_neq in Hk. unfold dispatch, is_kind.
  rewrite Hk.
  repeat match goal with
         | |- keeps_nodes (if ?c then _ else _) =>
             destruct c; [solve [eauto with keeps]|]
         end.
  eauto with keeps.
Qed.

(** The MatMul branch either leaves the sequence alone or fuses. *)
Lemma dispatch_nodes v i s node r s' :
  st_nodes s !! i = Some node ->
  dispatch v i node s = (r, s') ->
  st_nodes s' = st_nodes s
  \/ exists next outs,
       st_nodes s !! S i = Some next
       /\ py_pop_last (output node) = Some outs
       /\ st_nodes s'
          = delete (S i) (<[i := with_output node (outs ++ output next)]> (st_nodes s)).
Proof.
  intros Hn Hrun.
  destruct (String.eqb_spec (op_type node) "MatMul") as [Hk|Hk];
    [|left; by eapply dispatch_keeps_nodes].
  rewrite dispatch_MatMul, (matmul_op_run _ _ _ Hn) in Hrun by done.
  destruct (resolve (input node)); [injection Hrun as <- <-; by left|].
  destruct (build_affine node _); [injection Hrun as <- <-; by left|].
  destruct (st_nodes s !! S i) as [next|]; [|injection Hrun as <- <-; by left].
  destruct (resolve (input next)); [injection Hrun as <- <-; by left|].
  destruct (String.eqb (op_type next) "Add"); [|injection Hrun as <- <-; by left].
  destruct (py_pop_last (output node)) as [outs|]; [|injection Hrun as <- <-; by left].
  injection Hrun as <- <-. right. by exists next, outs.
Qed.

(** The naming lines, in closed form. *)
Lemma body_run v i s node :
  body v i node s =
    match dispatch v i node s with
    | (inl e, s') => (inl e, s')
    | (inr op, s') =>
        match st_nodes s' !! i with
        | None => (inl (IndexError AtGraphNode), s')
        | Some node' =>
            match first_output node' with
            | None => (inl (IndexError AtNodeOutput), s')
            | Some o => (inr (o, format_name (op_type node') o, op), s')
            end
        end
    end.
Proof.
  unfold body, bind at 1. destruct (dispatch v i node s) as [[e|op] s']; [done|].
  unfold bind at 1, graph_node_at. rewrite py_getitem_nat.
  destruct (st_nodes s' !! i) as [node'|]; [|done]. simpl or_raise.
  unfold ret at 1, bind, first_output.
  by destruct (output node' !! 0%nat).
Qed.

Lemma body_nodes v i s node r s' :
  st_nodes s !! i = Some node ->
  body v i node s = (r, s') ->
  st_nodes s' = st_nodes s
  \/ exists next outs,
       st_nodes s !! S i = Some next
       /\ py_pop_last (output node) = Some outs
       /\ st_nodes s'
          = delete (S i) (<[i := with_output node (outs ++ output next)]> (st_nodes s)).
Proof.
  intros Hn. rewrite body_run.
  destruct (dispatch v i node s) as [[e|op] s1] eqn:Hd.
  - intros [= <- <-]. by eapply dispatch_nodes.
  - destruct (st_nodes s1 !! i) as [node'|];
      [destruct (first_output node')|];
      intros [= <- <-]; by eapply dispatch_nodes.
Qed.

(** ** The loop runs to its end *)

Lemma loop_fuel_enough v fuel i s :
  (length (st_nodes s) - i < fuel)%nat ->
  status (loop v fuel i s) <> OutOfFuel.
Proof.
  revert i s. induction fuel as [|fuel IH]; intros i s Hlt; [lia|].
  simpl. destruct (st_nodes s !! i) as [node|] eqn:Hn; [|done].
  destruct (body v i node s) as [[e|t] s'] eqn:Hb; [done|].
  simpl. apply IH.
  assert (Hi : (i < length (st_nodes s))%nat) by (by eapply lookup_lt_Some).
  destruct (body_nodes _ _ _ _ _ _ Hn Hb) as [->|(next & outs & Hnext & _ & ->)];
    [lia|].
  rewrite length_after_fusion by (by eapply lookup_lt_Some). lia.
Qed.

(** ** Identifiers of the triples *)

Lemma first_output_pop_last node x outs more :
  py_pop_last (output node) = Some (x :: outs) ->
  first_output (with_output node ((x :: outs) ++ more)) = first_output node.
Proof.
  unfold py_pop_last, first_output. simpl.
  destruct (output node) as [|a [|a' l]]; [done..|].
  by intros [= -> _].
Qed.

(** The identifiers yielded from position [i] on are first output names of
    the nodes from position [i] on, in their order, each used at most once. *)
Lemma loop_ids_sublist v fuel i s :
  op_id <$> emitted (loop v fuel i s)
    `sublist_of` omap first_output (drop i (st_nodes s)).
Proof.
  revert i s. induction fuel as [|fuel IH]; intros i s; [apply sublist_nil_l|].
  simpl. destruct (st_nodes s !! i) as [node|] eqn:Hn; [|apply sublist_nil_l].
  destruct (body v i node s) as [[e|t] s'] eqn:Hb; [apply sublist_nil_l|].
  simpl. specialize (IH (S i) s').
  rewrite (drop_S _ _ _ Hn).
  pose proof Hb as Hb'. rewrite body_run in Hb'.
  destruct (dispatch v i node s) as [[e|op] s1] eqn:Hd; [done|].
  destruct (st_nodes s1 !! i) as [node'|] eqn:Hn'; [|done].
  destruct (first_output node') as [o|] eqn:Ho; [|done].
  injection Hb' as <- <-. unfold op_id at 1. simpl.
  destruct (dispatch_nodes _ _ _ _ _ _ Hn Hd)
    as [Hsame|(next & outs & Hnext & Hpop & Hfused)].
  - rewrite Hsame in *. rewrite Hn in Hn'. injection Hn' as <-.
    rewrite Ho. by apply sublist_skip.
  - assert (Hlt : (S i < length (st_nodes s))%nat) by (by eapply lookup_lt_Some).
    rewrite Hfused in IH, Hn'.
    rewrite drop_after_fusion in IH by done.
    rewrite list_lookup_delete_lt, list_lookup_insert_eq in Hn' by lia.
    injection Hn' as <-.
    rewrite (drop_S _ _ _ Hnext). simpl.
    destruct outs as [|x outs].
    + assert (Hnext_o : first_output next = Some o) by done.
      rewrite Hnext_o.
      destruct (first_output node);
        [apply sublist_cons|]; by apply sublist_skip.
    + rewrite (first_output_pop_last _ _ _ _ Hpop) in Ho. rewrite Ho.
      apply sublist_skip.
      destruct (first_output next); [by apply sublist_cons | done].
Qed.

(** ** More branches in closed form *)

Lemma dispatch_Reshape v i node :
  op_type node = "Reshape" ->
  dispatch v i node
  = bind (lift (reshape_shape node)) (fun shape => ret (OpReshape shape)).
Proof. unfold dispatch, is_kind. intros ->. reflexivity. Qed.

Lemma dispatch_Constant v i node :
  op_type node = "Constant" ->
  dispatch v i node
  = bind (lift (constant_of node)) (fun y => ret (OpValueWrapper y)).
Proof. unfold dispatch, is_kind. intros ->. reflexivity. Qed.

Lemma dispatch_Squeeze v i node :
  op_type node = "Squeeze" ->
  dispatch v i node = lift (module_of "Squeeze" [("opset_version", AInt v)] node).
Proof. unfold dispatch, is_kind. intros ->. reflexivity. Qed.

Lemma dispatch_Unsqueeze v i node :
  op_type node = "Unsqueeze" ->
  dispatch v i node = lift (module_of "Unsqueeze" [("opset_version", AInt v)] node).
Proof. unfold dispatch, is_kind. intros ->. reflexivity. Qed.

Lemma dispatch_LeakyRelu v i node :
  op_type node = "LeakyRelu" ->
  dispatch v i node = lift (module_of "nn.LeakyReLU" [("inplace", ABool true)] node).
Proof. unfold dispatch, is_kind. intros ->. reflexivity. Qed.

Lemma dispatch_Elu v i node :
  op_type node = "Elu" ->
  dispatch v i node = lift (module_of "nn.ELU" [("inplace", ABool true)] node).
Proof. unfold dispatch, is_kind. intros ->. reflexivity. Qed.

Lemma dispatch_ReduceMean v i node :
  op_type node = "ReduceMean" ->
  dispatch v i node
  = bind (lift (extract_attributes node))
      (fun kw => ret (OpPartial "torch.mean" (kw ∪ {["keepdim" := ABool true]}))).
Proof. unfold dispatch, is_kind. intros ->. reflexivity. Qed.

(** One keyword written out before the unpacked attributes. *)
Lemma module_of_one cls k x node kw :
  extract_attributes node = inr kw ->
  module_of cls [(k, x)] node
  = match kw !! k with
    | None => inr (OpModule cls (<[k := x]> kw))
    | Some _ => inl (TypeError "got multiple values for keyword argument")
    end.
Proof.
  intros He. unfold module_of, kwcall. rewrite He. simpl.
  destruct (kw !! k) eqn:E.
  - by rewrite bool_decide_eq_false_2.
  - by rewrite bool_decide_eq_true_2.
Qed.

Lemma build_weights_from (init : list TensorProto) (m : gmap string TensorProto)
    (name : string) :
  foldl (fun m t => <[tp_name t := t]> m) m init !! name
  = match last (filter (fun t => tp_name t = name) init) with
    | Some t => Some t
    | None => m !! name
    end.
Proof.
  revert m. induction init as [|t init IH]; intros m; [done|].
  simpl. rewrite IH. rewrite filter_cons.
  destruct (decide (tp_name t = name)) as [Ht|Ht].
  - rewrite last_cons.
    destruct (last (filter (fun t => tp_name t = name) init)); [done|].
    rewrite <- Ht. apply lookup_insert_eq.
  - destruct (last (filter (fun t => tp_name t = name) init)); [done|].
    by apply lookup_insert_ne.
Qed.

(** ** What a turn of the loop does to the state *)

Lemma take_after_fusion {A} (l : list A) (i : nat) (x : A) :
  (S i < length l)%nat ->
  take i (delete (S i) (<[i := x]> l)) = take i l.
Proof.
  intros Hlt. rewrite delete_take_drop.
  rewrite take_app_le by (rewrite length_take_le; [lia|rewrite length_insert; lia]).
  rewrite take_take. replace (i `min` S i)%nat with i by lia.
  by apply take_insert_ge.
Qed.

Lemma body_prefix v i s node r s' :
  st_nodes s !! i = Some node ->
  body v i node s = (r, s') ->
  take i (st_nodes s') = take i (st_nodes s).
Proof.
  intros Hn Hb.
  destruct (body_nodes _ _ _ _ _ _ Hn Hb) as [->|(next & outs & Hnext & _ & ->)];
    [done|].
  apply take_after_fusion. by eapply lookup_lt_Some.
Qed.

(** The triples yielded from position [i] on name, one by one and in
    order, the nodes found from position [i] on in the final sequence;
    the nodes before position [i] are not touched any more. *)
Lemma loop_triples v fuel i s :
  take i (st_nodes (final (loop v fuel i s))) = take i (st_nodes s)
  /\ Forall2 names_node (emitted (loop v fuel i s))
       (take (length (emitted (loop v fuel i s)))
          (drop i (st_nodes (final (loop v fuel i s)))))
  /\ (status (loop v fuel i s) = Done ->
      (i <= length (st_nodes s))%nat ->
      (length (emitted (loop v fuel i s)) + i
       = length (st_nodes (final (loop v fuel i s))))%nat).
Proof.
  revert i s. induction fuel as [|fuel IH]; intros i s.
  { simpl. repeat split; [constructor | done]. }
  simpl. destruct (st_nodes s !! i) as [node|] eqn:Hn.
  2:{ simpl. repeat split; [constructor|].
      intros _ Hle. apply lookup_ge_None in Hn. lia. }
  destruct (body v i node s) as [[e|t] s'] eqn:Hb.
  { simpl. repeat split; [by eapply body_prefix | constructor | done]. }
  pose proof (body_prefix _ _ _ _ _ _ Hn Hb) as Hpre.
  rewrite body_run in Hb.
  destruct (dispatch v i node s) as [[e|op] s1]; [done|].
  destruct (st_nodes s1 !! i) as [node'|] eqn:Hn'; [|done].
  destruct (first_output node') as [o|] eqn:Ho; [|done].
  injection Hb as <- <-.
  destruct (IH (S i) s1) as (Htake & Hall & Hdone).
  set (r := loop v fuel (S i) s1) in *. simpl.
  assert (Hfi : st_nodes (final r) !! i = Some node').
  { rewrite <- (lookup_take_lt (st_nodes (final r)) (S i) i) by lia.
    rewrite Htake. by rewrite lookup_take_lt by lia. }
  repeat split.
  - transitivity (take i (take (S i) (st_nodes (final r))));
      [rewrite take_take; f_equal; lia|].
    rewrite Htake, take_take. by replace (i `min` S i)%nat with i by lia.
  - rewrite (drop_S _ _ _ Hfi). simpl. constructor; [|done].
    split; [done|reflexivity].
  - intros Hst _. apply lookup_lt_Some in Hn'.
    specialize (Hdone Hst). lia.
Qed.

(** The fusion, with the kind of the node it removes. *)
Lemma dispatch_removes_add v i s node r s' :
  st_nodes s !! i = Some node ->
  dispatch v i node s = (r, s') ->
  st_nodes s' = st_nodes s
  \/ exists next outs,
       st_nodes s !! S i = Some next
       /\ op_type next = "Add"
       /\ st_nodes s' = delete (S i) (<[i := with_output node outs]> (st_nodes s)).
Proof.
  intros Hn Hrun.
  destruct (String.eqb_spec (op_type node) "MatMul") as [Hk|Hk];
    [|left; by eapply dispatch_keeps_nodes].
  rewrite dispatch_MatMul, (matmul_op_run _ _ _ Hn) in Hrun by done.
  destruct (resolve (input node)); [injection Hrun as <- <-; by left|].
  destruct (build_affine node _); [injection Hrun as <- <-; by left|].
  destruct (st_nodes s !! S i) as [next|]; [|injection Hrun as <- <-; by left].
  destruct (resolve (input next)); [injection Hrun as <- <-; by left|].
  destruct (String.eqb_spec (op_type next) "Add") as [Ha|Ha];
    [|injection Hrun as <- <-; by left].
  destruct (py_pop_last (output node)) as [outs|]; [|injection Hrun as <- <-; by left].
  injection Hrun as <- <-. right. by eexists next, _.
Qed.

Lemma body_state v i s node r s' :
  body v i node s = (r, s') -> exists r0, dispatch v i node s = (r0, s').
Proof.
  rewrite body_run. destruct (dispatch v i node s) as [[e|op] s1].
  - intros [= <- <-]. by eexists.
  - destruct (st_nodes s1 !! i) as [node'|];
      [destruct (first_output node')|]; intros [= <- <-]; by eexists.
Qed.

Lemma filter_delete_rejected {A} (P : A -> Prop) `{!forall x, Decision (P x)}
    (l : list A) (j : nat) (x : A) :
  l !! j = Some x -> ~ P x -> filter P (delete j l) = filter P l.
Proof.
  intros Hj Hx. rewrite delete_take_drop.
  rewrite <- (take_drop j l) at 3. rewrite (drop_S _ _ _ Hj).
  rewrite !filter_app. by rewrite (filter_cons_False _ _ _ Hx).
Qed.

Lemma fusion_sigs (l : list Node) (i : nat) (node next : Node) outs :
  l !! i = Some node ->
  node_sig <$> delete (S i) (<[i := with_output node outs]> l)
  = delete (S i) (node_sig <$> l).
Proof.
  intros Hn. rewrite list_fmap_delete, list_fmap_insert.
  change (node_sig (with_output node outs)) with (node_sig node).
  rewrite list_insert_id; [done|]. by rewrite list_lookup_fmap, Hn.
Qed.

Lemma body_sigs v i s node r s' :
  st_nodes s !! i = Some node ->
  body v i node s = (r, s') ->
  node_sig <$> st_nodes s' `sublist_of` node_sig <$> st_nodes s
  /\ filter (fun x => x.1.1 <> "Add") (node_sig <$> st_nodes s')
     = filter (fun x => x.1.1 <> "Add") (node_sig <$> st_nodes s).
Proof.
  intros Hn Hb. destruct (body_state _ _ _ _ _ _ Hb) as [r0 Hd].
  destruct (dispatch_removes_add _ _ _ _ _ _ Hn Hd)
    as [->|(next & outs & Hnext & Ha & ->)]; [done|].
  rewrite (fusion_sigs _ _ _ next) by done. split; [apply sublist_delete|].
  apply (filter_delete_rejected _ _ _ (node_sig next)).
  - by rewrite list_lookup_fmap, Hnext.
  - simpl. by intros []. 
Qed.

Lemma loop_sigs v fuel i s :
  node_sig <$> st_nodes (final (loop v fuel i s)) `sublist_of` node_sig <$> st_nodes s
  /\ filter (fun x => x.1.1 <> "Add") (node_sig <$> st_nodes (final (loop v fuel i s)))
     = filter (fun x => x.1.1 <> "Add") (node_sig <$> st_nodes s).
Proof.
  revert i s. induction fuel as [|fuel IH]; intros i s; [done|].
  simpl. destruct (st_nodes s !! i) as [node|] eqn:Hn; [|done].
  destruct (body v i node s) as [[e|t] s'] eqn:Hb.
  - simpl. by eapply body_sigs.
  - simpl. destruct (body_sigs _ _ _ _ _ _ Hn Hb) as [Hsub Hf].
    destruct (IH (S i) s') as [Hsub' Hf']. split.
    + by etrans.
    + by rewrite Hf'.
Qed.

(** ** Which branches print *)

Lemma quiet_ret {A} (a : A) : keeps_stdout (ret a).
Proof. by intros s r s' [= <- <-]. Qed.

Lemma quiet_raise {A} (e : Exn) : keeps_stdout (@raise A e).
Proof. by intros s r s' [= <- <-]. Qed.

Lemma quiet_lift {A} (r : result A) : keeps_stdout (lift r).
Proof. destruct r; [apply quiet_raise | apply quiet_ret]. Qed.

Lemma quiet_bind {A B} (m : M A) (k : A -> M B) :
  keeps_stdout m -> (forall a, keeps_stdout (k a)) -> keeps_stdout (bind m k).
Proof.
  intros Hm Hk s r s'. unfold bind.
  destruct (m s) as [[e|a] s1] eqn:E.
  - intros [= <- <-]. by eapply Hm.
  - intros Hrun. rewrite (Hk _ _ _ _ Hrun). by eapply Hm.
Qed.

Lemma quiet_fold_constant_op special generic i :
  keeps_stdout (fold_constant_op special generic i).
Proof.
  unfold fold_constant_op. apply quiet_bind.
  - intros s r s'. unfold graph_node_at.
    destruct (py_getitem (st_nodes s) _); by intros [= <- <-].
  - intros prev. destruct (String.eqb (op_type prev) "Constant").
    + apply quiet_bind; [apply quiet_lift | intros; apply quiet_ret].
    + apply quiet_ret.
Qed.

#[local] Hint Resolve quiet_ret quiet_raise quiet_lift quiet_bind
  quiet_fold_constant_op : quiet.

(** Only the last branch of the conditional prints. *)
Lemma dispatch_quiet v i s node r s' :
  is_explicit (op_type node) = true ->
  st_nodes s !! i = Some node ->
  dispatch v i node s = (r, s') ->
  st_stdout s' = st_stdout s.
Proof.
  intros Hx Hn.
  destruct (String.eqb_spec (op_type node) "MatMul") as [Hk|Hk].
  { rewrite dispatch_MatMul, (matmul_op_run _ _ _ Hn) by done.
    repeat case_match; by intros [= <- <-]. }
  apply String.eqb_neq in Hk. clear Hn. revert s r s'.
  change (keeps_stdout (dispatch v i node)).
  unfold is_explicit, explicit_kinds in Hx. cbn [existsb] in Hx.
  unfold dispatch, is_kind. rewrite Hk.
  repeat match goal with
         | |- keeps_stdout (if ?c then _ else _) =>
             let E := fresh "E" in
             destruct c eqn:E; [solve [eauto with quiet]|];
             rewrite ?E in Hx
         end.
  rewrite Hk in Hx. discriminate.
Qed.

Lemma loop_quiet v fuel i s :
  Forall (fun n => is_explicit (op_type n) = true) (st_nodes s) ->
  st_stdout (final (loop v fuel i s)) = st_stdout s.
Proof.
  revert i s. induction fuel as [|fuel IH]; intros i s Hall; [done|].
  simpl. destruct (st_nodes s !! i) as [node|] eqn:Hn; [|done].
  assert (Hx : is_explicit (op_type node) = true).
  { by apply (Forall_lookup_1 _ _ _ _ Hall Hn). }
  destruct (body v i node s) as [[e|t] s'] eqn:Hb;
    destruct (body_state _ _ _ _ _ _ Hb) as [r0 Hd];
    pose proof (dispatch_quiet _ _ _ _ _ _ Hx Hn Hd) as Hq; [done|].
  simpl. rewrite IH; [done|].
  destruct (dispatch_nodes _ _ _ _ _ _ Hn Hd) as [->|(next & outs & _ & _ & ->)];
    [done|].
  apply Forall_delete, Forall_insert; done.
Qed.

(** With enough fuel for the nodes that are left, more fuel changes nothing. *)
Lemma loop_fuel_irrelevant v fuel fuel' i s :
  (length (st_nodes s) - i < fuel)%nat -> (fuel <= fuel')%nat ->
  loop v fuel' i s = loop v fuel i s.
Proof.
  revert fuel' i s. induction fuel as [|fuel IH]; intros fuel' i s Hlt Hle; [lia|].
  destruct fuel' as [|fuel']; [lia|].
  simpl. destruct (st_nodes s !! i) as [node|] eqn:Hn; [|done].
  destruct (body v i node s) as [[e|t] s'] eqn:Hb; [done|].
  rewrite (IH fuel'); [done| |lia].
  assert (Hi : (i < length (st_nodes s))%nat) by (by eapply lookup_lt_Some).
  destruct (body_nodes _ _ _ _ _ _ Hn Hb) as [->|(next & outs & Hnext & _ & ->)];
    [lia|].
  rewrite length_after_fusion by (by eapply lookup_lt_Some). lia.
Qed.

Lemma omap_length_le {A B} (f : A -> option B) (l : list A) :
  (length (omap f l) <= length l)%nat.
Proof.
  induction l as [|x l IH]; [done|]. cbn [omap list_omap].
  destruct (f x); rewrite ?length_cons; lia.
Qed.

Lemma dispatch_Add v i node :
  op_type node = "Add" ->
  dispatch v i node = ret (OpModule "Add" {["feature_dim" := AInt (batch_dim + 1)]}).
Proof. unfold dispatch, is_kind. intros ->. reflexivity. Qed.

(** ** The claims *)

(** C1: a MatMul node with a resolved constant (a matrix) and exactly one
    output name, followed at once by an Add node with a resolved constant.
    This turn of the loop adds exactly one triple to what the pass yields:
    its identifier is the Add's first output name, its name is [MatMul], an
    underscore and that identifier, and its unit is the affine unit built
    for the MatMul, with the same dimensions and weight, whose bias is now
    the tensor of the Add's first constant.  The MatMul node now carries
    the Add's output names, the Add node is gone from the sequence, and
    the walk goes on with the nodes that followed the Add: every later
    triple is named after one of those, so no turn is spent on the Add. *)
Theorem C1_matmul_add_fusion v fuel i s mm add w ws r c b bs o oa oas :
  st_nodes s !! i = Some mm ->
  st_nodes s !! S i = Some add ->
  op_type mm = "MatMul" ->
  resolve (input mm) = w :: ws ->
  tp_dims w = [r; c] ->
  output mm = [o] ->
  op_type add = "Add" ->
  resolve (input add) = b :: bs ->
  output add = oa :: oas ->
  exists lin s' mm',
    build_affine mm w = inr lin
    /\ bias lin = None
    /\ emitted (loop v (S fuel) i s)
       = (oa, ("MatMul" ++ "_" ++ oa)%string,
          OpLinear {| in_features := in_features lin;
                      out_features := out_features lin;
                      weight := weight lin;
                      bias := Some {| t_shape := tp_dims b; t_data := tp_raw b |} |})
         :: emitted (loop v fuel (S i) s')
    /\ final (loop v (S fuel) i s) = final (loop v fuel (S i) s')
    /\ status (loop v (S fuel) i s) = status (loop v fuel (S i) s')
    /\ st_nodes s' = delete (S i) (<[i := mm']> (st_nodes s))
    /\ st_stdout s' = st_stdout s
    /\ op_type mm' = "MatMul"
    /\ input mm' = input mm
    /\ attribute mm' = attribute mm
    /\ output mm' = oa :: oas
    /\ st_nodes s' !! i = Some mm'
    /\ drop (S i) (st_nodes s') = drop (S (S i)) (st_nodes s)
    /\ length (st_nodes s') = (length (st_nodes s) - 1)%nat
    /\ op_id <$> emitted (loop v fuel (S i) s')
         `sublist_of` omap first_output (drop (S (S i)) (st_nodes s)).
Proof.
  intros Hmm Hadd Hk Hr Hd Ho Hka Hra Hoa.
  destruct (build_affine_matrix _ _ _ _ _ Hr Hd) as (lin & Hb & Hbias).
  set (mm' := with_output mm (output add)).
  set (s' := {| st_nodes := delete (S i) (<[i := mm']> (st_nodes s));
                st_stdout := st_stdout s |}).
  assert (Hlt : (i < length (st_nodes s))%nat) by (by eapply lookup_lt_Some).
  assert (Hlt' : (S i < length (st_nodes s))%nat) by (by eapply lookup_lt_Some).
  assert (Hi : st_nodes s' !! i = Some mm').
  { simpl. rewrite list_lookup_delete_lt by lia.
    by apply list_lookup_insert_eq. }
  assert (Hloop : loop v (S fuel) i s
    = yield (oa, format_name "MatMul" oa, OpLinear (set_bias lin (to_array b)))
        (loop v fuel (S i) s')).
  { assert (Hdis : dispatch v i mm s
      = (inr (OpLinear (set_bias lin (to_array b))), s')).
    { rewrite dispatch_MatMul, (matmul_op_run _ _ _ Hmm), Hr, Hb, Hadd, Hra, Hka, Ho
        by done. reflexivity. }
    apply (loop_step _ _ _ _ mm); [done|].
    unfold body, bind. rewrite Hdis. unfold graph_node_at.
    rewrite py_getitem_nat, Hi. simpl. rewrite Hoa. simpl.
    by rewrite Hk. }
  exists lin, s', mm'. rewrite Hloop.
  split; [done|]. split; [done|]. split; [reflexivity|].
  split; [reflexivity|]. split; [reflexivity|]. split; [reflexivity|].
  split; [reflexivity|]. split; [exact Hk|]. split; [reflexivity|].
  split; [reflexivity|]. split; [exact Hoa|]. split; [exact Hi|].
  split; [by apply drop_after_fusion|]. split; [by apply length_after_fusion|].
  rewrite <- (drop_after_fusion _ _ mm' Hlt').
  apply (loop_ids_sublist v fuel (S i) s').
Qed.



(** C4: a node whose kind has no rule of its own.  If [torch] has an
    attribute named as the lowercased kind, that attribute is the unit and
    exactly one line naming it is printed; otherwise the branch raises
    [NotImplementedError] with the kind in its message, nothing is printed,
    and the pass ends there without a triple for the node. *)
Theorem C4_unrecognized_kind v fuel i s node :
  st_nodes s !! i = Some node ->
  is_explicit (op_type node) = false ->
  (torch_has (lower (op_type node)) = true ->
     dispatch v i node s
     = (inr (OpTorch (lower (op_type node))),
        {| st_nodes := st_nodes s;
           st_stdout := st_stdout s
             ++ ["Automatic inference of operator: " ++ lower (op_type node)] |})
     /\ forall o outs, output node = o :: outs ->
          loop v (S fuel) i s
          = yield (o, format_name (op_type node) o, OpTorch (lower (op_type node)))
              (loop v fuel (S i)
                 {| st_nodes := st_nodes s;
                    st_stdout := st_stdout s
                      ++ ["Automatic inference of operator: "
                          ++ lower (op_type node)] |}))
  /\ (torch_has (lower (op_type node)) = false ->
        dispatch v i node s
        = (inl (NotImplementedError
                  ("Conversion not implemented for op_type=" ++ op_type node ++ ".")),
           s)
        /\ loop v (S fuel) i s
           = {| emitted := []; final := s;
                status := Raised (NotImplementedError
                  ("Conversion not implemented for op_type="
                   ++ op_type node ++ ".")) |}).
Proof.
  intros Hn Hx. split; intros Ht.
  - assert (Hd : dispatch v i node s
      = (inr (OpTorch (lower (op_type node))),
         {| st_nodes := st_nodes s;
            st_stdout := st_stdout s
              ++ ["Automatic inference of operator: " ++ lower (op_type node)] |})).
    { rewrite dispatch_fallback by done. unfold fallback_op. by rewrite Ht. }
    split; [done|]. intros o outs Ho.
    apply (loop_step _ _ _ _ node); [done|].
    by apply (body_of_dispatch _ _ _ _ _ _ _ outs).
  - assert (Hd : dispatch v i node s
      = (inl (NotImplementedError
                ("Conversion not implemented for op_type=" ++ op_type node ++ ".")),
         s)).
    { rewrite dispatch_fallback by done. unfold fallback_op. by rewrite Ht. }
    split; [done|].
    apply (loop_raise _ _ _ _ node); [done|]. by apply body_raise.
Qed.

(** C5: the node the claim fails on.  A model of one node, a MatMul with
    an input name in the weight index and a declared output: the lookahead
    reads the position after the node although there is none, so the pass
    yields no triple at all and ends with an exception, the [IndexError]
    of the node sequence whenever the affine unit itself was built. *)
Theorem C5_lone_matmul_yields_no_triple node v vs w ws o outs :
  graph_node onnx_model = [node] ->
  opset_import onnx_model = v :: vs ->
  op_type node = "MatMul" ->
  resolve (input node) = w :: ws ->
  output node = o :: outs ->
  emitted convert_operations = []
  /\ final convert_operations = initial_state
  /\ exists e,
       status convert_operations = Raised e
       /\ forall lin, build_affine node w = inr lin -> e = IndexError AtGraphNode.
Proof.
  intros Hnodes Hv Hk Hr Ho.
  assert (Hn : st_nodes initial_state !! 0%nat = Some node)
    by (simpl; by rewrite Hnodes).
  assert (Hnone : st_nodes initial_state !! 1%nat = None)
    by (simpl; by rewrite Hnodes).
  assert (Hrun : convert_operations = loop v 2 0 initial_state).
  { unfold convert_operations. by rewrite Hv, Hnodes. }
  assert (Hd : dispatch v 0 node initial_state
    = match build_affine node w with
      | inl e => (inl e, initial_state)
      | inr _ => (inl (IndexError AtGraphNode), initial_state)
      end).
  { rewrite dispatch_MatMul, (matmul_op_run _ _ _ Hn), Hr, Hnone by done.
    by destruct (build_affine node w). }
  rewrite Hrun.
  destruct (build_affine node w) as [e|lin] eqn:Hb.
  - rewrite (loop_raise v 1 0 _ node e initial_state Hn (body_raise _ _ _ _ _ _ Hd)).
    repeat split. by exists e.
  - rewrite (loop_raise v 1 0 _ node (IndexError AtGraphNode) initial_state Hn
               (body_raise _ _ _ _ _ _ Hd)).
    repeat split. by eexists.
Qed.

(** C6: if the first output names of the nodes of the model are pairwise
    distinct, no two triples of the pass have the same identifier, fused
    MatMul nodes included. *)
Theorem C6_operator_ids_distinct :
  NoDup (omap first_output (graph_node onnx_model)) ->
  NoDup (op_id <$> emitted convert_operations).
Proof.
  intros Hnd. unfold convert_operations.
  destruct (opset_import onnx_model !! 0%nat) as [v|]; [|constructor].
  eapply sublist_NoDup; [exact Hnd|].
  apply (loop_ids_sublist v _ 0 initial_state).
Qed.

(** C7: a MatMul node none of whose input names is in the weight index
    yields the generic primitive [torch.matmul], and the node sequence is
    left as it was: the branch returns the state it was given, and the walk
    goes on from the next position of the same sequence. *)
Theorem C7_matmul_without_constant v fuel i s node :
  st_nodes s !! i = Some node ->
  op_type node = "MatMul" ->
  Forall (fun name => weights !! name = None) (input node) ->
  dispatch v i node s = (inr (OpTorch "matmul"), s)
  /\ forall o outs, output node = o :: outs ->
       loop v (S fuel) i s
       = yield (o, format_name "MatMul" o, OpTorch "matmul") (loop v fuel (S i) s).
Proof.
  intros Hn Hk Hin. apply resolve_nil in Hin.
  assert (Hd : dispatch v i node s = (inr (OpTorch "matmul"), s)).
  { rewrite dispatch_MatMul by done. unfold matmul_op. by rewrite Hin. }
  split; [done|]. intros o outs Ho.
  apply (loop_step _ _ _ _ node); [done|].
  rewrite <- Hk. by apply (body_of_dispatch _ _ _ _ _ _ _ outs).
Qed.

(** C8: a Split node whose extracted attributes have no
    [split_size_or_sections] is configured with [number_of_splits] equal to
    the number of its declared outputs, next to the extracted attributes. *)
Theorem C8_split_number_of_splits v i s node kw :
  op_type node = "Split" ->
  extract_attributes node = inr kw ->
  kw !! "split_size_or_sections" = None ->
  exists cfg,
    dispatch v i node s = (inr (OpModule "Split" cfg), s)
    /\ cfg = <["number_of_splits" := AInt (Z.of_nat (length (output node)))]> kw
    /\ cfg !! "number_of_splits" = Some (AInt (Z.of_nat (length (output node)))).
Proof.
  intros Hk He Hs. eexists. split; [|split; [reflexivity|]].
  - rewrite dispatch_Split by done. unfold split_op. by rewrite He, Hs.
  - apply lookup_insert_eq.
Qed.


(** C10: a MatMul node with a resolved constant that is the last node of
    the sequence.  The lookahead reads position [i + 1], which does not
    exist, before it looks at anything else: the pass ends at this node
    with an exception and without a triple for it, and whenever the affine
    unit itself could be built that exception is the [IndexError] of the
    node sequence. *)
Theorem C10_trailing_matmul_lookahead v fuel i s node w ws :
  st_nodes s !! i = Some node ->
  length (st_nodes s) = S i ->
  op_type node = "MatMul" ->
  resolve (input node) = w :: ws ->
  py_getitem (st_nodes s) (Z.of_nat i + 1) = None
  /\ exists e,
       loop v (S fuel) i s = {| emitted := []; final := s; status := Raised e |}
       /\ forall lin, build_affine node w = inr lin -> e = IndexError AtGraphNode.
Proof.
  intros Hn Hlen Hk Hr.
  assert (Hnone : st_nodes s !! S i = None) by (apply lookup_ge_None; lia).
  split; [by rewrite py_getitem_succ|].
  assert (Hd : dispatch v i node s
    = match build_affine node w with
      | inl e => (inl e, s)
      | inr _ => (inl (IndexError AtGraphNode), s)
      end).
  { rewrite dispatch_MatMul, (matmul_op_run _ _ _ Hn), Hr, Hnone by done.
    by destruct (build_affine node w). }
  destruct (build_affine node w) as [e|lin] eqn:Hb.
  - exists e. split; [|done].
    apply (loop_raise _ _ _ _ node); [done|]. by apply body_raise.
  - exists (IndexError AtGraphNode). split; [|done].
    apply (loop_raise _ _ _ _ node); [done|]. by apply body_raise.
Qed.

(** ** Further properties of the pass *)

(** X6: the weight index maps a name to the last initializer of that
    name, and to nothing when no initializer has it. *)
Theorem X6_weight_index_last_wins (name : string) :
  weights !! name
  = last (filter (fun t => tp_name t = name) (graph_initializer onnx_model)).
Proof.
  unfold weights, build_weights. rewrite build_weights_from.
  by destruct (last _).
Qed.

(** X7: the Reshape branch.  Without any initializer the target shape is
    left open and the inputs of the node are not looked at.  With an
    initializer, a node with fewer than two inputs raises [IndexError];
    otherwise the shape is the first initializer named as the second
    input, and is left open when there is none. *)
Theorem X7_reshape_shape v i s node :
  op_type node = "Reshape" ->
  (graph_initializer onnx_model = [] ->
     dispatch v i node s = (inr (OpReshape None), s))
  /\ (graph_initializer onnx_model <> [] ->
        input node !! 1%nat = None ->
        dispatch v i node s = (inl (IndexError AtNodeInput), s))
  /\ (forall name1 pre p post,
        input node !! 1%nat = Some name1 ->
        graph_initializer onnx_model = (pre ++ p :: post)%list ->
        Forall (fun x => tp_name x <> name1) pre ->
        tp_name p = name1 ->
        dispatch v i node s = (inr (OpReshape (Some (to_array p))), s))
  /\ (forall name1,
        input node !! 1%nat = Some name1 ->
        Forall (fun x => tp_name x <> name1) (graph_initializer onnx_model) ->
        dispatch v i node s = (inr (OpReshape None), s)).
Proof.
  intros Hk. rewrite dispatch_Reshape by done.
  unfold bind, reshape_shape, initializer. repeat split.
  - intros ->. done.
  - intros Hne Hin. destruct (graph_initializer onnx_model); [done|].
    by rewrite Hin.
  - intros name1 pre p post Hin Hinit Hpre Hp. rewrite Hinit, Hin.
    assert (Hf : filter (fun x => tp_name x = name1) (pre ++ p :: post)%list
                 = p :: filter (fun x => tp_name x = name1) post).
    { rewrite filter_app, filter_cons_True by done.
      replace (filter (fun x => tp_name x = name1) pre) with (@nil TensorProto);
        [done|].
      symmetry. clear -Hpre. induction Hpre as [|x l Hx _ IH]; [done|].
      by rewrite filter_cons_False. }
    rewrite Hf. by destruct pre.
  - intros name1 Hin Hnone. rewrite Hin.
    assert (Hf : filter (fun x => tp_name x = name1) (graph_initializer onnx_model)
                 = []).
    { clear -Hnone. induction Hnone as [|x l Hx _ IH]; [done|].
      by rewrite filter_cons_False. }
    rewrite Hf. by destruct (graph_initializer onnx_model).
Qed.

(** X13: a Squeeze or Unsqueeze unit is configured with the extracted
    attributes and the opset version of the model under [opset_version];
    if the extractor itself returns that keyword, the call is a
    [TypeError]. *)
Theorem X13_squeeze_gets_opset_version v i s node kw :
  extract_attributes node = inr kw ->
  (kw !! "opset_version" = None ->
     (op_type node = "Squeeze" ->
        dispatch v i node s
        = (inr (OpModule "Squeeze" (<["opset_version" := AInt v]> kw)), s))
     /\ (op_type node = "Unsqueeze" ->
           dispatch v i node s
           = (inr (OpModule "Unsqueeze" (<["opset_version" := AInt v]> kw)), s)))
  /\ (is_Some (kw !! "opset_version") ->
        op_type node = "Squeeze" \/ op_type node = "Unsqueeze" ->
        dispatch v i node s
        = (inl (TypeError "got multiple values for keyword argument"), s)).
Proof.
  intros He. split.
  - intros Hnone. split; intros Hk;
      [rewrite dispatch_Squeeze by done | rewrite dispatch_Unsqueeze by done];
      by rewrite (module_of_one _ _ _ _ _ He), Hnone.
  - intros [x Hx] [Hk|Hk];
      [rewrite dispatch_Squeeze by done | rewrite dispatch_Unsqueeze by done];
      by rewrite (module_of_one _ _ _ _ _ He), Hx.
Qed.

(** X14: the ReduceMean unit is [torch.mean] with the extracted
    attributes; [keepdim] is true unless the extractor gives it a value. *)
Theorem X14_reduce_mean_keepdim v i s node kw :
  op_type node = "ReduceMean" ->
  extract_attributes node = inr kw ->
  exists cfg,
    dispatch v i node s = (inr (OpPartial "torch.mean" cfg), s)
    /\ cfg !! "keepdim" = Some (default (ABool true) (kw !! "keepdim"))
    /\ forall k, k <> "keepdim" -> cfg !! k = kw !! k.
Proof.
  intros Hk He. exists (kw ∪ {["keepdim" := ABool true]}). repeat split.
  - rewrite dispatch_ReduceMean by done. unfold bind. by rewrite He.
  - unfold Attrs in *. destruct (kw !! "keepdim") eqn:E; simpl.
    + by apply lookup_union_Some_l.
    + rewrite lookup_union_r by done. apply lookup_singleton_eq.
  - intros k Hne. unfold Attrs in *. destruct (kw !! k) eqn:E.
    + by apply lookup_union_Some_l.
    + rewrite lookup_union_r by done. by apply lookup_singleton_ne.
Qed.

(** X15: a LeakyRelu or Elu unit is built in place: the extracted
    attributes with [inplace] true; if the extractor itself returns
    [inplace], the call is a [TypeError]. *)
Theorem X15_activation_inplace v i s node kw :
  extract_attributes node = inr kw ->
  (kw !! "inplace" = None ->
     (op_type node = "LeakyRelu" ->
        dispatch v i node s
        = (inr (OpModule "nn.LeakyReLU" (<["inplace" := ABool true]> kw)), s))
     /\ (op_type node = "Elu" ->
           dispatch v i node s
           = (inr (OpModule "nn.ELU" (<["inplace" := ABool true]> kw)), s)))
  /\ (is_Some (kw !! "inplace") ->
        op_type node = "LeakyRelu" \/ op_type node = "Elu" ->
        dispatch v i node s
        = (inl (TypeError "got multiple values for keyword argument"), s)).
Proof.
  intros He. split.
  - intros Hnone. split; intros Hk;
      [rewrite dispatch_LeakyRelu by done | rewrite dispatch_Elu by done];
      by rewrite (module_of_one _ _ _ _ _ He), Hnone.
  - intros [x Hx] [Hk|Hk];
      [rewrite dispatch_LeakyRelu by done | rewrite dispatch_Elu by done];
      by rewrite (module_of_one _ _ _ _ _ He), Hx.
Qed.

(** X18: a Constant node whose extracted attributes have no [constant]
    entry raises [KeyError]: the pass ends at that node, without a triple
    for it and with the state as it was. *)
Theorem X18_constant_without_value v fuel i s node kw :
  st_nodes s !! i = Some node ->
  op_type node = "Constant" ->
  extract_attributes node = inr kw ->
  kw !! "constant" = None ->
  loop v (S fuel) i s
  = {| emitted := []; final := s; status := Raised (KeyError "constant") |}.
Proof.
  intros Hn Hk He Hnone.
  apply (loop_raise _ _ _ _ node); [done|]. apply body_raise.
  rewrite dispatch_Constant by done. unfold bind, constant_of.
  by rewrite He, Hnone.
Qed.

(** X8: a Constant node followed at once by a Sub or Div node.  Both get
    a triple: the Constant its value wrapper, and the Sub or Div the unit
    specialised over the same value.  The sequence is left as it was: the
    folded Constant is not removed. *)
Theorem X8_constant_then_sub_div v fuel i s c node y oc ocs o os :
  st_nodes s !! i = Some c ->
  st_nodes s !! S i = Some node ->
  op_type c = "Constant" ->
  constant_of c = inr y ->
  output c = oc :: ocs ->
  output node = o :: os ->
  (op_type node = "Sub" ->
     loop v (S (S fuel)) i s
     = yield (oc, format_name "Constant" oc, OpValueWrapper y)
         (yield (o, format_name "Sub" o, OpSub y) (loop v fuel (S (S i)) s)))
  /\ (op_type node = "Div" ->
        loop v (S (S fuel)) i s
        = yield (oc, format_name "Constant" oc, OpValueWrapper y)
            (yield (o, format_name "Div" o, OpDiv y) (loop v fuel (S (S i)) s))).
Proof.
  intros Hc Hn Hkc Hy Hoc Ho.
  assert (H1 : loop v (S (S fuel)) i s
    = yield (oc, format_name "Constant" oc, OpValueWrapper y)
        (loop v (S fuel) (S i) s)).
  { apply (loop_step _ _ _ _ c); [done|]. rewrite <- Hkc.
    apply (body_of_dispatch _ _ _ _ _ _ _ ocs); [|done..].
    rewrite dispatch_Constant by done. unfold bind. by rewrite Hy. }
  assert (Hg : py_getitem (st_nodes s) (Z.of_nat (S i) - 1) = Some c).
  { rewrite py_getitem_pred by lia. by replace (S i - 1)%nat with i by lia. }
  rewrite H1.
  split; intros Hk; f_equal;
    apply (loop_step _ _ _ _ node); try done; rewrite <- Hk;
    apply (body_of_dispatch _ _ _ _ _ _ _ os); try done.
  - rewrite dispatch_Sub by done.
    by rewrite (fold_constant_op_run _ _ _ _ _ Hg), Hkc, Hy.
  - rewrite dispatch_Div by done.
    by rewrite (fold_constant_op_run _ _ _ _ _ Hg), Hkc, Hy.
Qed.

(** X16: when the first node of the model is a Sub or Div node and the
    last node of the sequence is not a Constant (in particular when the
    node is alone, being then its own node at position [-1]), its unit is
    the generic [torch.sub] or [torch.true_divide] and nothing is raised. *)
Theorem X16_first_sub_div_generic v node rest lastn :
  graph_node onnx_model = node :: rest ->
  last (graph_node onnx_model) = Some lastn ->
  op_type lastn <> "Constant" ->
  (op_type node = "Sub" ->
     dispatch v 0 node initial_state = (inr (OpTorch "sub"), initial_state))
  /\ (op_type node = "Div" ->
        dispatch v 0 node initial_state
        = (inr (OpTorch "true_divide"), initial_state)).
Proof.
  intros Hnodes Hlast Hc. apply String.eqb_neq in Hc.
  assert (Hg : py_getitem (st_nodes initial_state) (Z.of_nat 0 - 1) = Some lastn)
    by (by rewrite py_getitem_minus_one).
  split; intros Hk;
    [rewrite dispatch_Sub by done | rewrite dispatch_Div by done];
    by rewrite (fold_constant_op_run _ _ _ _ _ Hg), Hc.
Qed.

(** X9: a MatMul node with a resolved matrix constant whose next node is
    not an Add, or is an Add none of whose inputs is in the weight index.
    The unit is the affine unit without bias, under the MatMul's own first
    output name, and the walk goes on over the same sequence. *)
Theorem X9_matmul_next_not_fusable v fuel i s mm next w ws r c o os :
  st_nodes s !! i = Some mm ->
  st_nodes s !! S i = Some next ->
  op_type mm = "MatMul" ->
  resolve (input mm) = w :: ws ->
  tp_dims w = [r; c] ->
  output mm = o :: os ->
  op_type next <> "Add"
    \/ Forall (fun name => weights !! name = None) (input next) ->
  exists lin,
    build_affine mm w = inr lin
    /\ bias lin = None
    /\ loop v (S fuel) i s
       = yield (o, format_name "MatMul" o, OpLinear lin) (loop v fuel (S i) s).
Proof.
  intros Hmm Hnext Hk Hr Hd Ho Hno.
  destruct (build_affine_matrix _ _ _ _ _ Hr Hd) as (lin & Hb & Hbias).
  exists lin. split; [done|]. split; [done|].
  apply (loop_step _ _ _ _ mm); [done|]. rewrite <- Hk.
  apply (body_of_dispatch _ _ _ _ _ _ _ os); [|done..].
  rewrite dispatch_MatMul, (matmul_op_run _ _ _ Hmm), Hr, Hb, Hnext by done.
  destruct Hno as [Hne|Hnone].
  - apply String.eqb_neq in Hne. rewrite Hne. by destruct (resolve (input next)).
  - apply resolve_nil in Hnone. by rewrite Hnone.
Qed.

(** X10: the fusion when the MatMul node declares two or more output
    names.  Only its last output name is dropped before the Add's output
    names are appended, so the fused triple keeps the MatMul's own first
    output name, while the Add node is removed all the same. *)
Theorem X10_fusion_with_several_outputs
    v fuel i s mm add w ws r c b bs o1 o2 os :
  st_nodes s !! i = Some mm ->
  st_nodes s !! S i = Some add ->
  op_type mm = "MatMul" ->
  resolve (input mm) = w :: ws ->
  tp_dims w = [r; c] ->
  output mm = o1 :: o2 :: os ->
  op_type add = "Add" ->
  resolve (input add) = b :: bs ->
  exists lin s',
    build_affine mm w = inr lin
    /\ st_nodes s'
       = delete (S i)
           (<[i := with_output mm (removelast (output mm) ++ output add)]>
              (st_nodes s))
    /\ first_output (with_output mm (removelast (output mm) ++ output add))
       = Some o1
    /\ loop v (S fuel) i s
       = yield (o1, format_name "MatMul" o1, OpLinear (set_bias lin (to_array b)))
           (loop v fuel (S i) s').
Proof.
  intros Hmm Hadd Hk Hr Hd Ho Hka Hra.
  destruct (build_affine_matrix _ _ _ _ _ Hr Hd) as (lin & Hb & _).
  set (mm' := with_output mm (removelast (output mm) ++ output add)).
  set (s' := {| st_nodes := delete (S i) (<[i := mm']> (st_nodes s));
                st_stdout := st_stdout s |}).
  assert (Hlt : (i < length (st_nodes s))%nat) by (by eapply lookup_lt_Some).
  assert (Hfirst : first_output mm' = Some o1).
  { unfold mm', first_output. rewrite Ho. reflexivity. }
  exists lin, s'. repeat split; try done.
  assert (Hdis : dispatch v i mm s
    = (inr (OpLinear (set_bias lin (to_array b))), s')).
  { rewrite dispatch_MatMul, (matmul_op_run _ _ _ Hmm), Hr, Hb, Hadd, Hra, Hka
      by done.
    unfold py_pop_last, s', mm'. rewrite Ho. reflexivity. }
  apply (loop_step _ _ _ _ mm); [done|].
  rewrite body_run, Hdis.
  assert (Hi : st_nodes s' !! i = Some mm').
  { simpl. rewrite list_lookup_delete_lt by lia. by apply list_lookup_insert_eq. }
  rewrite Hi, Hfirst. unfold mm'. simpl op_type. by rewrite Hk.
Qed.

(** X11: the fusion when the MatMul node declares no output name.  The
    removal of its last output name raises [IndexError] before anything is
    rewritten: the pass ends at that node and the sequence still has the
    Add node. *)
Theorem X11_fusion_without_output v fuel i s mm add w ws r c b bs :
  st_nodes s !! i = Some mm ->
  st_nodes s !! S i = Some add ->
  op_type mm = "MatMul" ->
  resolve (input mm) = w :: ws ->
  tp_dims w = [r; c] ->
  output mm = [] ->
  op_type add = "Add" ->
  resolve (input add) = b :: bs ->
  loop v (S fuel) i s
  = {| emitted := []; final := s; status := Raised (IndexError AtOutputPop) |}.
Proof.
  intros Hmm Hadd Hk Hr Hd Ho Hka Hra.
  destruct (build_affine_matrix _ _ _ _ _ Hr Hd) as (lin & Hb & _).
  apply (loop_raise _ _ _ _ mm); [done|]. apply body_raise.
  rewrite dispatch_MatMul, (matmul_op_run _ _ _ Hmm), Hr, Hb, Hadd, Hra, Hka, Ho
    by done.
  reflexivity.
Qed.

(** X12: a node without output names whose branch builds a unit.  The
    naming lines raise [IndexError]: no triple is yielded for the node, and
    what the branch printed stays printed. *)
Theorem X12_node_without_output v fuel i s node op s' :
  st_nodes s !! i = Some node ->
  output node = [] ->
  dispatch v i node s = (inr op, s') ->
  st_nodes s' = st_nodes s
  /\ loop v (S fuel) i s
     = {| emitted := []; final := s'; status := Raised (IndexError AtNodeOutput) |}.
Proof.
  intros Hn Ho Hd.
  assert (Hs : st_nodes s' = st_nodes s).
  { destruct (dispatch_nodes _ _ _ _ _ _ Hn Hd) as [->|(next & outs & _ & Hpop & _)];
      [done|].
    unfold py_pop_last in Hpop. by rewrite Ho in Hpop. }
  split; [done|].
  apply (loop_raise _ _ _ _ node); [done|].
  rewrite body_run, Hd, Hs, Hn. unfold first_output. by rewrite Ho.
Qed.

(** X1: the pass always comes to an end, by exhausting the node sequence
    or by an exception: one turn more than there are nodes is enough, and
    any further turn allowed changes nothing of the result. *)
Theorem X1_pass_terminates :
  (status convert_operations = Done
   \/ exists e, status convert_operations = Raised e)
  /\ forall v vs extra,
       opset_import onnx_model = v :: vs ->
       loop v (S (length (graph_node onnx_model)) + extra) 0 initial_state
       = convert_operations.
Proof.
  split.
  - assert (H : status convert_operations <> OutOfFuel).
    { unfold convert_operations.
      destruct (opset_import onnx_model !! 0%nat); [|done].
      apply loop_fuel_enough. simpl. lia. }
    destruct (status convert_operations); [by left | by right; eexists | done].
  - intros v vs extra Hv. unfold convert_operations. rewrite Hv.
    change ((v :: vs) !! 0%nat) with (Some v). cbv iota.
    apply loop_fuel_irrelevant; simpl; lia.
Qed.

(** X2: the triples of the pass name, one by one and in order, the first
    nodes of the node sequence as the pass leaves it: the identifier is the
    first output name of the node and the name is its kind, an underscore
    and that identifier.  When the pass ends without an exception there is
    exactly one triple per node left in the sequence. *)
Theorem X2_triples_name_the_nodes_left :
  Forall2 names_node (emitted convert_operations)
    (take (length (emitted convert_operations))
       (st_nodes (final convert_operations)))
  /\ (status convert_operations = Done ->
        Forall2 names_node (emitted convert_operations)
          (st_nodes (final convert_operations))).
Proof.
  unfold convert_operations.
  destruct (opset_import onnx_model !! 0%nat) as [v|].
  2:{ simpl. split; [constructor | done]. }
  destruct (loop_triples v (S (length (graph_node onnx_model))) 0 initial_state)
    as (_ & Hall & Hdone).
  rewrite drop_0 in Hall. split; [done|].
  intros Hst. specialize (Hdone Hst ltac:(lia)).
  rewrite Nat.add_0_r in Hdone. rewrite Hdone in Hall.
  by rewrite firstn_all in Hall.
Qed.

(** X3: the identifiers of the triples are first output names of nodes of
    the model, in the order of the model and each from a node of its own;
    so there are never more triples than nodes. *)
Theorem X3_identifiers_follow_node_order :
  op_id <$> emitted convert_operations
    `sublist_of` omap first_output (graph_node onnx_model)
  /\ (length (emitted convert_operations) <= length (graph_node onnx_model))%nat.
Proof.
  assert (H : op_id <$> emitted convert_operations
                `sublist_of` omap first_output (graph_node onnx_model)).
  { unfold convert_operations.
    destruct (opset_import onnx_model !! 0%nat) as [v|]; [|apply sublist_nil_l].
    apply (loop_ids_sublist v _ 0 initial_state). }
  split; [done|].
  apply sublist_length in H. rewrite length_fmap in H.
  etrans; [exact H|]. apply omap_length_le.
Qed.

(** X4: whatever the outcome, the nodes the pass leaves in the sequence
    are nodes of the model in their order with kind, inputs and attributes
    unchanged, and every node that is not an Add is still there: the pass
    only ever removes Add nodes and only ever rewrites output names. *)
Theorem X4_only_add_nodes_are_removed :
  node_sig <$> st_nodes (final convert_operations)
    `sublist_of` node_sig <$> graph_node onnx_model
  /\ filter (fun x => x.1.1 <> "Add")
       (node_sig <$> st_nodes (final convert_operations))
     = filter (fun x => x.1.1 <> "Add") (node_sig <$> graph_node onnx_model).
Proof.
  unfold convert_operations.
  destruct (opset_import onnx_model !! 0%nat) as [v|]; [|done].
  apply (loop_sigs v _ 0 initial_state).
Qed.

(** X5: if every node of the model is of a kind with a rule of its own,
    the pass prints nothing, whatever its outcome. *)
Theorem X5_explicit_kinds_print_nothing :
  Forall (fun n => is_explicit (op_type n) = true) (graph_node onnx_model) ->
  st_stdout (final convert_operations) = [].
Proof.
  intros Hall. unfold convert_operations.
  destruct (opset_import onnx_model !! 0%nat) as [v|]; [|done].
  by rewrite loop_quiet.
Qed.

(** X19: the fusion absorbs one Add only.  When the Add fused into a
    MatMul is itself followed by an Add, that second Add gets a triple of
    its own, the plain Add unit, even if one of its inputs is in the
    weight index. *)
Theorem X19_fusion_absorbs_one_add
    v fuel i s mm add add2 w ws r c b bs o oa oas o2 os2 :
  st_nodes s !! i = Some mm ->
  st_nodes s !! S i = Some add ->
  st_nodes s !! S (S i) = Some add2 ->
  op_type mm = "MatMul" ->
  resolve (input mm) = w :: ws ->
  tp_dims w = [r; c] ->
  output mm = [o] ->
  op_type add = "Add" ->
  resolve (input add) = b :: bs ->
  output add = oa :: oas ->
  op_type add2 = "Add" ->
  output add2 = o2 :: os2 ->
  exists lin s',
    build_affine mm w = inr lin
    /\ st_nodes s' = delete (S i) (<[i := with_output mm (output add)]> (st_nodes s))
    /\ loop v (S (S fuel)) i s
       = yield (oa, format_name "MatMul" oa, OpLinear (set_bias lin (to_array b)))
           (yield (o2, format_name "Add" o2,
                   OpModule "Add" {["feature_dim" := AInt (batch_dim + 1)]})
              (loop v fuel (S (S i)) s')).
Proof.
  intros Hmm Hadd Hadd2 Hk Hr Hd Ho Hka Hra Hoa Hk2 Ho2.
  destruct (build_affine_matrix _ _ _ _ _ Hr Hd) as (lin & Hb & _).
  set (s' := {| st_nodes := delete (S i)
                  (<[i := with_output mm (output add)]> (st_nodes s));
                st_stdout := st_stdout s |}).
  assert (Hlt : (i < length (st_nodes s))%nat) by (by eapply lookup_lt_Some).
  assert (Hi : st_nodes s' !! i = Some (with_output mm (output add))).
  { simpl. rewrite list_lookup_delete_lt by lia. by apply list_lookup_insert_eq. }
  assert (Hi2 : st_nodes s' !! S i = Some add2).
  { simpl. rewrite list_lookup_delete_ge by lia.
    by rewrite list_lookup_insert_ne by lia. }
  exists lin, s'. split; [done|]. split; [done|].
  assert (Hdis : dispatch v i mm s
    = (inr (OpLinear (set_bias lin (to_array b))), s')).
  { rewrite dispatch_MatMul, (matmul_op_run _ _ _ Hmm), Hr, Hb, Hadd, Hra, Hka, Ho
      by done. reflexivity. }
  rewrite (loop_step v (S fuel) i s mm
             (oa, format_name "MatMul" oa, OpLinear (set_bias lin (to_array b))) s');
    [|done|].
  2:{ rewrite body_run, Hdis, Hi. unfold first_output. simpl. rewrite Hoa.
      simpl. by rewrite Hk. }
  f_equal. apply (loop_step _ _ _ _ add2); [done|].
  replace (format_name "Add" o2) with (format_name (op_type add2) o2)
    by (by rewrite Hk2).
  apply (body_of_dispatch _ _ _ _ _ _ _ os2); [|done..].
  by rewrite dispatch_Add.
Qed.

(** X20: a model of one node that declares an output.  Whenever the
    conditional builds a unit for the node, the pass yields exactly one
    triple and ends: its identifier is the first output name of the node
    and its name is the kind, an underscore and that identifier; the node
    sequence is as it was.  Whenever the conditional raises instead, the
    pass yields nothing and ends with that exception.  For a node of a
    plain kind the conditional always builds its unit. *)
Theorem X20_single_node_triple node v vs o outs :
  graph_node onnx_model = [node] ->
  opset_import onnx_model = v :: vs ->
  output node = o :: outs ->
  (forall op s',
     dispatch v 0 node initial_state = (inr op, s') ->
     st_nodes s' = [node]
     /\ convert_operations
        = {| emitted := [(o, (op_type node ++ "_" ++ o)%string, op)];
             final := s'; status := Done |})
  /\ (forall e s',
        dispatch v 0 node initial_state = (inl e, s') ->
        convert_operations = {| emitted := []; final := s'; status := Raised e |})
  /\ (In (op_type node) plain_kinds ->
        exists op,
          convert_operations
          = {| emitted := [(o, (op_type node ++ "_" ++ o)%string, op)];
               final := initial_state; status := Done |}).
Proof.
  intros Hnodes Hv Ho.
  assert (Hn : st_nodes initial_state !! 0%nat = Some node)
    by (simpl; by rewrite Hnodes).
  assert (Hrun : convert_operations = loop v 2 0 initial_state).
  { unfold convert_operations. by rewrite Hv, Hnodes. }
  assert (Hok : forall op s',
    dispatch v 0 node initial_state = (inr op, s') ->
    st_nodes s' = [node]
    /\ convert_operations
       = {| emitted := [(o, format_name (op_type node) o, op)];
            final := s'; status := Done |}).
  { intros op s' Hd.
    assert (Hs' : st_nodes s' = [node]).
    { destruct (dispatch_nodes _ _ _ _ _ _ Hn Hd) as [->|(next & _ & Hnext & _)].
      - simpl. done.
      - simpl in Hnext. by rewrite Hnodes in Hnext. }
    split; [done|]. rewrite Hrun.
    rewrite (loop_step v 1 0 _ node (o, format_name (op_type node) o, op) s');
      [|done|].
    - simpl. by rewrite Hs'.
    - apply (body_of_dispatch _ _ _ _ _ _ _ outs); [done| by rewrite Hs' |done]. }
  split; [exact Hok|]. split.
  - intros e s' Hd. rewrite Hrun.
    apply (loop_raise _ _ _ _ node); [done|]. by apply body_raise.
  - intros Hplain. destruct (dispatch_plain_kinds v 0 node Hplain) as [op Hop].
    exists op. by destruct (Hok op initial_state (Hop _)).
Qed.

End Convert.

Arguments OpLayer {Layer} l.
Arguments OpGemm {Layer} l feature_dim.
Arguments OpModule {Layer} cls kwargs.
Arguments OpPartial {Layer} fn kwargs.
Arguments OpValueWrapper {Layer} v.
Arguments OpReshape {Layer} shape.
Arguments OpTorch {Layer} name.
Arguments OpWrapper {Layer} name.
Arguments OpDiv {Layer} y.
Arguments OpSub {Layer} y.
Arguments OpLinear {Layer} lin.
Arguments yield {Layer} t r.
Arguments emitted {Layer} r.
Arguments final {Layer} r.
Arguments status {Layer} r.
Arguments op_id {Layer} t.
Arguments names_node {Layer} t n.

(** ** The pass run again on the model it has rewritten *)

Section Rerun.

Variable Layer : Type.
Variable extract_attributes : Node -> result Attrs.
Variable convert_layer : Node -> string -> option (list TensorProto) -> result Layer.
Variable convert_linear_layer : Node -> list TensorProto -> result Layer.
Variable convert_batch_norm_layer : Node -> list TensorProto -> result Layer.
Variable convert_instance_norm_layer : Node -> list TensorProto -> result Layer.
Variable torch_has : string -> bool.

Local Abbreviation run m batch_dim :=
  (convert_operations Layer extract_attributes convert_layer convert_linear_layer
     convert_batch_norm_layer convert_instance_norm_layer torch_has m batch_dim).

(** X17: the pass is not repeatable on a model it has fused.  For a model
    made of a MatMul and the Add fused into it, the first pass ends with
    one triple and leaves the MatMul alone in the sequence; a second pass
    over that same model object then finds the MatMul last and ends with
    the [IndexError] of its lookahead, without any triple. *)
Theorem X17_second_pass_after_fusion
    m batch_dim mm add w ws r c b bs o oa oas v vs :
  graph_node m = [mm; add] ->
  opset_import m = v :: vs ->
  op_type mm = "MatMul" ->
  resolve m (input mm) = w :: ws ->
  tp_dims w = [r; c] ->
  output mm = [o] ->
  op_type add = "Add" ->
  resolve m (input add) = b :: bs ->
  output add = oa :: oas ->
  let m' := {| graph_node := st_nodes (final (run m batch_dim));
               graph_initializer := graph_initializer m;
               opset_import := opset_import m |} in
  status (run m batch_dim) = Done
  /\ length (emitted (run m batch_dim)) = 1%nat
  /\ st_nodes (final (run m batch_dim)) = [with_output mm (output add)]
  /\ run m' batch_dim
     = {| emitted := []; final := initial_state m';
          status := Raised (IndexError AtGraphNode) |}.
Proof.
  intros Hnodes Hv Hk Hr Hd Ho Hka Hra Hoa.
  destruct (build_affine_matrix m mm w ws r c Hr Hd) as (lin & Hb & _).
  set (s1 := {| st_nodes := [with_output mm (output add)]; st_stdout := [] |}).
  assert (Hrun : run m batch_dim
    = {| emitted := [(oa, format_name "MatMul" oa,
                      OpLinear (set_bias lin (to_array b)))];
         final := s1; status := Done |}).
  { unfold convert_operations. rewrite Hv, Hnodes.
    change ((v :: vs) !! 0%nat) with (Some v). cbv iota.
    change (S (length [mm; add])) with 3%nat.
    assert (Hn : st_nodes (initial_state m) !! 0%nat = Some mm)
      by (simpl; by rewrite Hnodes).
    assert (Hdis : dispatch Layer extract_attributes convert_layer
        convert_linear_layer convert_batch_norm_layer convert_instance_norm_layer
        torch_has m batch_dim v 0 mm (initial_state m)
      = (inr (OpLinear (set_bias lin (to_array b))), s1)).
    { assert (Hnext : st_nodes (initial_state m) !! 1%nat = Some add)
        by (simpl; by rewrite Hnodes).
      rewrite dispatch_MatMul by done.
      rewrite (matmul_op_run Layer m 0 _ mm Hn), Hr, Hb, Hnext, Hra, Hka, Ho.
      unfold s1. simpl. by rewrite Hnodes. }
    erewrite loop_step; [| exact Hn |].
    2:{ rewrite body_run, Hdis. simpl. unfold first_output. simpl.
        rewrite Hoa. simpl. rewrite Hk. reflexivity. }
    reflexivity. }
  rewrite Hrun. cbn [final status emitted st_nodes s1 length].
  set (mm' := with_output mm (output add)).
  set (m2 := {| graph_node := [mm']; graph_initializer := graph_initializer m;
                opset_import := opset_import m |}).
  repeat split.
  assert (Hn2 : st_nodes (initial_state m2) !! 0%nat = Some mm') by reflexivity.
  unfold convert_operations. cbn [opset_import m2]. rewrite Hv.
  change ((v :: vs) !! 0%nat) with (Some v). cbv iota.
  eapply loop_raise; [exact Hn2|].
  apply body_raise. rewrite dispatch_MatMul by done.
  rewrite (matmul_op_run Layer m2 0 _ mm' Hn2).
  change (resolve m2 (input mm')) with (resolve m (input mm)). rewrite Hr.
  change (build_affine m2 mm' w) with (build_affine m mm w). rewrite Hb.
  reflexivity.
Qed.

End Rerun.

(** ** The claims at work on concrete graphs *)

(** A definition of the pass applied to the collaborators of [Demo], a
    model and the batch dimension 0. *)
Local Abbreviation in_demo f m :=
  (f string Demo.extract_attributes Demo.convert_layer Demo.convert_linear_layer
     Demo.convert_batch_norm_layer Demo.convert_instance_norm_layer
     Demo.torch_has m 0).

(** The graph of the fusion test: a Constant, a MatMul over the initializer
    [W] and an Add over the initializer [b]. *)
Example fusion_end_to_end :
  let mm := Demo.node "MatMul" ["x"; "W"] ["mm"] in
  let add := Demo.node "Add" ["mm"; "b"] ["y"] in
  let r := in_demo convert_operations (Demo.model [Demo.const_node; mm; add]) in
  emitted r
  = [("c", "Constant_c", OpValueWrapper (to_array Demo.b));
     ("y", "MatMul_y",
      OpLinear {| in_features := 2; out_features := 3;
                  weight := {| t_shape := [3; 2]%nat;
                               t_data := [1; 4; 2; 5; 3; 6] |};
                  bias := Some (to_array Demo.b) |})]
  /\ status r = Done
  /\ st_nodes (final r)
     = [Demo.const_node; Demo.node "MatMul" ["x"; "W"] ["y"]].
Proof. vm_compute. done. Qed.

(** A MatMul over an initializer with nothing after it. *)
Example lone_matmul_with_constant :
  in_demo convert_operations (Demo.model [Demo.node "MatMul" ["x"; "W"] ["mm"]])
  = {| emitted := [];
       final := Demo.state [Demo.node "MatMul" ["x"; "W"] ["mm"]];
       status := Raised (IndexError AtGraphNode) |}.
Proof. vm_compute. done. Qed.

(** A model without an opset import fails before the first node. *)
Example no_opset_import :
  status (in_demo convert_operations
            {| graph_node := [Demo.node "Relu" ["x"] ["y"]];
               graph_initializer := []; opset_import := [] |})
  = Raised (IndexError AtOpsetImport).
Proof. reflexivity. Qed.

(** A Sub node alone is its own node at position [-1]. *)
Example lone_sub :
  emitted (in_demo convert_operations (Demo.model [Demo.node "Sub" ["x"; "y"] ["d"]]))
  = [("d", "Sub_d", OpTorch "sub")].
Proof. vm_compute. done. Qed.

Lemma C1_witness :
  let mm := Demo.node "MatMul" ["x"; "W"] ["mm"] in
  let add := Demo.node "Add" ["mm"; "b"] ["y"] in
  let relu := Demo.node "Relu" ["y"] ["z"] in
  let s := Demo.state [mm; add; relu] in
  let m := Demo.model (st_nodes s) in
  exists s',
    st_nodes s' = [Demo.node "MatMul" ["x"; "W"] ["y"]; relu]
    /\ emitted (in_demo loop m 11 3%nat 0%nat s)
       = ("y", "MatMul_y",
          OpLinear {| in_features := 2; out_features := 3;
                      weight := {| t_shape := [3; 2]%nat;
                                   t_data := [1; 4; 2; 5; 3; 6] |};
                      bias := Some {| t_shape := [3]%nat; t_data := [7; 8; 9] |} |})
         :: emitted (in_demo loop m 11 2%nat 1%nat s').
Proof.
  intros mm add relu s m.
  destruct (in_demo C1_matmul_add_fusion m 11 2%nat 0%nat s mm add
              Demo.W [] 2%nat 3%nat Demo.b [] "mm" "y" [])
    as (lin & s' & mm' & Hb & _ & Hem & _ & _ & Hnodes & _ & Hk & Hin & Hat & Hout & _);
    [reflexivity..|].
  assert (Hlin : lin = {| in_features := 2; out_features := 3;
                          weight := {| t_shape := [3; 2]%nat;
                                       t_data := [1; 4; 2; 5; 3; 6] |};
                          bias := None |})
    by (injection Hb as <-; reflexivity).
  assert (Hmm' : mm' = Demo.node "MatMul" ["x"; "W"] ["y"]).
  { destruct mm' as [k ins outs attrs]. simpl in Hk, Hin, Hat, Hout.
    rewrite Hk, Hin, Hat, Hout. reflexivity. }
  exists s'. split.
  - rewrite Hnodes, Hmm'. reflexivity.
  - rewrite Hem, Hlin. reflexivity.
Defined.



Lemma C4_witness :
  let abs := Demo.node "Abs" ["x"] ["y"] in
  let foo := Demo.node "Foo" ["x"] ["y"] in
  let m := Demo.model [abs; foo] in
  let s := Demo.state [abs; foo] in
  in_demo dispatch m 11 0%nat abs s
  = (inr (OpTorch "abs"),
     {| st_nodes := [abs; foo];
        st_stdout := ["Automatic inference of operator: abs"] |})
  /\ in_demo loop m 11 1%nat 1%nat s
     = {| emitted := []; final := s;
          status := Raised (NotImplementedError
                              "Conversion not implemented for op_type=Foo.") |}.
Proof.
  intros abs foo m s. split.
  - destruct (in_demo C4_unrecognized_kind m 11 0%nat 0%nat s abs) as [Hyes _];
      [reflexivity | reflexivity |].
    destruct Hyes as [Hd _]; [reflexivity | exact Hd].
  - destruct (in_demo C4_unrecognized_kind m 11 0%nat 1%nat s foo) as [_ Hno];
      [reflexivity | reflexivity |].
    destruct Hno as [_ Hl]; [reflexivity | exact Hl].
Defined.

Lemma C5_witness :
  let mm := Demo.node "MatMul" ["x"; "W"] ["mm"] in
  let m := Demo.model [mm] in
  emitted (in_demo convert_operations m) = []
  /\ status (in_demo convert_operations m) = Raised (IndexError AtGraphNode).
Proof.
  intros mm m.
  destruct (in_demo C5_lone_matmul_yields_no_triple m mm 11 [] Demo.W [] "mm" [])
    as (Hem & _ & e & Hst & He); [reflexivity..|].
  split; [exact Hem|]. rewrite Hst. f_equal. exact (He _ eq_refl).
Defined.

Lemma C6_witness :
  let mm := Demo.node "MatMul" ["x"; "W"] ["mm"] in
  let add := Demo.node "Add" ["mm"; "b"] ["y"] in
  let relu := Demo.node "Relu" ["y"] ["z"] in
  NoDup (op_id <$> emitted (in_demo convert_operations (Demo.model [mm; add; relu]))).
Proof.
  intros mm add relu.
  apply (in_demo C6_operator_ids_distinct (Demo.model [mm; add; relu])).
  apply (bool_decide_unpack _). vm_compute. exact I.
Defined.

Lemma C7_witness :
  let n := Demo.node "MatMul" ["x"; "y"] ["mm"] in
  let s := Demo.state [n; Demo.node "Add" ["mm"; "b"] ["y"]] in
  in_demo dispatch (Demo.model (st_nodes s)) 11 0%nat n s
  = (inr (OpTorch "matmul"), s)
  /\ in_demo loop (Demo.model (st_nodes s)) 11 3%nat 0%nat s
     = yield ("mm", format_name "MatMul" "mm", OpTorch "matmul")
         (in_demo loop (Demo.model (st_nodes s)) 11 2%nat 1%nat s).
Proof.
  intros n s.
  destruct (in_demo C7_matmul_without_constant (Demo.model (st_nodes s))
              11 2%nat 0%nat s n) as [Hd Hl].
  - reflexivity.
  - reflexivity.
  - repeat constructor.
  - split; [exact Hd | exact (Hl "mm" [] eq_refl)].
Defined.

Lemma C8_witness :
  let n := Demo.node "Split" ["x"] ["a"; "b"; "c"] in
  let s := Demo.state [n] in
  exists cfg,
    in_demo dispatch (Demo.model [n]) 11 0%nat n s = (inr (OpModule "Split" cfg), s)
    /\ cfg = <["number_of_splits" := AInt 3]> ∅
    /\ cfg !! "number_of_splits" = Some (AInt 3).
Proof.
  intros n s.
  exact (in_demo C8_split_number_of_splits (Demo.model [n]) 11 0%nat s n ∅
           eq_refl eq_refl eq_refl).
Defined.


Lemma C10_witness :
  let relu := Demo.node "Relu" ["x"] ["r"] in
  let mm := Demo.node "MatMul" ["r"; "W"] ["mm"] in
  let s := Demo.state [relu; mm] in
  let m := Demo.model (st_nodes s) in
  in_demo loop m 11 1%nat 1%nat s
  = {| emitted := []; final := s; status := Raised (IndexError AtGraphNode) |}.
Proof.
  intros relu mm s m.
  destruct (in_demo C10_trailing_matmul_lookahead m 11 0%nat 1%nat s mm Demo.W [])
    as (_ & e & Hl & He); [reflexivity..|].
  rewrite Hl. f_equal. f_equal.
  exact (He _ eq_refl).
Defined.

Lemma X1_witness :
  let m := Demo.model [Demo.node "MatMul" ["x"; "W"] ["mm"];
                       Demo.node "Add" ["mm"; "b"] ["y"]] in
  in_demo loop m 11 (3 + 5)%nat 0%nat (initial_state m) = in_demo convert_operations m.
Proof.
  intros m. destruct (in_demo X1_pass_terminates m) as [_ H].
  exact (H 11 [] 5%nat eq_refl).
Defined.

Lemma X2_witness :
  let m := Demo.model [Demo.node "MatMul" ["x"; "W"] ["mm"];
                       Demo.node "Add" ["mm"; "b"] ["y"];
                       Demo.node "Relu" ["y"] ["z"]] in
  Forall2 names_node (emitted (in_demo convert_operations m))
    (st_nodes (final (in_demo convert_operations m))).
Proof.
  intros m. destruct (in_demo X2_triples_name_the_nodes_left m) as [_ H].
  exact (H eq_refl).
Defined.

Lemma X5_witness :
  let m := Demo.model [Demo.node "MatMul" ["x"; "W"] ["mm"];
                       Demo.node "Add" ["mm"; "b"] ["y"];
                       Demo.node "Relu" ["y"] ["z"]] in
  st_stdout (final (in_demo convert_operations m)) = [].
Proof.
  intros m. apply (in_demo X5_explicit_kinds_print_nothing m).
  repeat constructor.
Defined.

Lemma X7_witness :
  let short := Demo.node "Reshape" ["x"] ["y"] in
  let full := Demo.node "Reshape" ["x"; "b"] ["y"] in
  let s := Demo.state [short; full] in
  let m := Demo.model [short; full] in
  in_demo dispatch m 11 0%nat short s = (inl (IndexError AtNodeInput), s)
  /\ in_demo dispatch m 11 1%nat full s
     = (inr (OpReshape (Some (to_array Demo.b))), s).
Proof.
  intros short full s m. split.
  - destruct (in_demo X7_reshape_shape m 11 0%nat s short eq_refl)
      as (_ & H & _).
    apply H; [discriminate | reflexivity].
  - destruct (in_demo X7_reshape_shape m 11 1%nat s full eq_refl)
      as (_ & _ & H & _).
    apply (H "b" [Demo.W] Demo.b []); [reflexivity | reflexivity | | reflexivity].
    repeat constructor. discriminate.
Defined.

Lemma X8_witness :
  let sub := Demo.node "Sub" ["x"; "c"] ["d"] in
  let s := Demo.state [Demo.const_node; sub] in
  let m := Demo.model (st_nodes s) in
  in_demo loop m 11 3%nat 0%nat s
  = yield ("c", format_name "Constant" "c", OpValueWrapper (to_array Demo.b))
      (yield ("d", format_name "Sub" "d", OpSub (to_array Demo.b))
         (in_demo loop m 11 1%nat 2%nat s)).
Proof.
  intros sub s m.
  destruct (in_demo X8_constant_then_sub_div m 11 1%nat 0%nat s Demo.const_node sub
              (to_array Demo.b) "c" [] "d" []) as [H _]; [reflexivity..|].
  exact (H eq_refl).
Defined.

Lemma X9_witness :
  let mm := Demo.node "MatMul" ["x"; "W"] ["mm"] in
  let add := Demo.node "Add" ["mm"; "other"] ["y"] in
  let s := Demo.state [mm; add] in
  let m := Demo.model (st_nodes s) in
  exists lin,
    bias lin = None
    /\ in_demo loop m 11 2%nat 0%nat s
       = yield ("mm", format_name "MatMul" "mm", OpLinear lin)
           (in_demo loop m 11 1%nat 1%nat s).
Proof.
  intros mm add s m.
  destruct (in_demo X9_matmul_next_not_fusable m 11 1%nat 0%nat s mm add
              Demo.W [] 2%nat 3%nat "mm" [])
    as (lin & _ & Hbias & Hloop); [reflexivity..| |].
  - right. repeat constructor.
  - exists lin. split; [exact Hbias | exact Hloop].
Defined.

Lemma X10_witness :
  let mm := Demo.node "MatMul" ["x"; "W"] ["mm"; "aux"] in
  let add := Demo.node "Add" ["mm"; "b"] ["y"] in
  let s := Demo.state [mm; add] in
  let m := Demo.model (st_nodes s) in
  exists lin s',
    st_nodes s' = [Demo.node "MatMul" ["x"; "W"] ["mm"; "y"]]
    /\ in_demo loop m 11 2%nat 0%nat s
       = yield ("mm", format_name "MatMul" "mm",
                OpLinear (set_bias lin (to_array Demo.b)))
           (in_demo loop m 11 1%nat 1%nat s').
Proof.
  intros mm add s m.
  destruct (in_demo X10_fusion_with_several_outputs m 11 1%nat 0%nat s mm add
              Demo.W [] 2%nat 3%nat Demo.b [] "mm" "aux" [])
    as (lin & s' & _ & Hnodes & _ & Hloop); [reflexivity..|].
  exists lin, s'. split; [exact Hnodes | exact Hloop].
Defined.

Lemma X11_witness :
  let mm := Demo.node "MatMul" ["x"; "W"] [] in
  let add := Demo.node "Add" ["mm"; "b"] ["y"] in
  let s := Demo.state [mm; add] in
  in_demo loop (Demo.model (st_nodes s)) 11 2%nat 0%nat s
  = {| emitted := []; final := s; status := Raised (IndexError AtOutputPop) |}.
Proof.
  intros mm add s.
  apply (in_demo X11_fusion_without_output (Demo.model (st_nodes s)) 11 1%nat 0%nat
           s mm add Demo.W [] 2%nat 3%nat Demo.b []); reflexivity.
Defined.

Lemma X12_witness :
  let abs := Demo.node "Abs" ["x"] [] in
  let s := Demo.state [abs] in
  let s' := {| st_nodes := [abs];
               st_stdout := ["Automatic inference of operator: abs"] |} in
  in_demo loop (Demo.model [abs]) 11 1%nat 0%nat s
  = {| emitted := []; final := s'; status := Raised (IndexError AtNodeOutput) |}.
Proof.
  intros abs s s'.
  destruct (in_demo X12_node_without_output (Demo.model [abs]) 11 0%nat 0%nat
              s abs (OpTorch "abs") s') as [_ H]; [reflexivity..|exact H].
Defined.

Lemma X13_witness :
  let plain := Demo.node "Squeeze" ["x"] ["y"] in
  let clash := {| op_type := "Unsqueeze"; input := ["x"]; output := ["y"];
                  attribute := [("opset_version", AInt 9)] |} in
  let s := Demo.state [plain; clash] in
  let m := Demo.model (st_nodes s) in
  in_demo dispatch m 11 0%nat plain s
  = (inr (OpModule "Squeeze" (<["opset_version" := AInt 11]> ∅)), s)
  /\ in_demo dispatch m 11 1%nat clash s
     = (inl (TypeError "got multiple values for keyword argument"), s).
Proof.
  intros plain clash s m. split.
  - destruct (in_demo X13_squeeze_gets_opset_version m 11 0%nat s plain ∅ eq_refl)
      as [H _].
    destruct (H eq_refl) as [Hs _]. exact (Hs eq_refl).
  - destruct (in_demo X13_squeeze_gets_opset_version m 11 1%nat s clash
                (list_to_map [("opset_version", AInt 9)]) eq_refl) as [_ H].
    apply H; [by eexists | by right].
Defined.

Lemma X14_witness :
  let mean := {| op_type := "ReduceMean"; input := ["x"]; output := ["y"];
                 attribute := [("dim", AInts [1]); ("keepdim", ABool false)] |} in
  let s := Demo.state [mean] in
  exists cfg,
    in_demo dispatch (Demo.model [mean]) 11 0%nat mean s
    = (inr (OpPartial "torch.mean" cfg), s)
    /\ cfg !! "keepdim" = Some (ABool false)
    /\ cfg !! "dim" = Some (AInts [1]).
Proof.
  intros mean s.
  destruct (in_demo X14_reduce_mean_keepdim (Demo.model [mean]) 11 0%nat s mean
              (list_to_map [("dim", AInts [1]); ("keepdim", ABool false)])
              eq_refl eq_refl) as (cfg & Hd & Hkeep & Hrest).
  exists cfg. split; [exact Hd|]. split; [exact Hkeep|].
  rewrite (Hrest "dim"); [reflexivity | discriminate].
Defined.

Lemma X15_witness :
  let leaky := {| op_type := "LeakyRelu"; input := ["x"]; output := ["y"];
                  attribute := [("negative_slope", AFloat 1036831949)] |} in
  let s := Demo.state [leaky] in
  in_demo dispatch (Demo.model [leaky]) 11 0%nat leaky s
  = (inr (OpModule "nn.LeakyReLU"
            (<["inplace" := ABool true]>
               (list_to_map [("negative_slope", AFloat 1036831949)]))), s).
Proof.
  intros leaky s.
  destruct (in_demo X15_activation_inplace (Demo.model [leaky]) 11 0%nat s leaky
              (list_to_map [("negative_slope", AFloat 1036831949)]) eq_refl)
    as [H _].
  destruct (H eq_refl) as [Hl _]. exact (Hl eq_refl).
Defined.

Lemma X16_witness :
  let div := Demo.node "Div" ["x"; "y"] ["q"] in
  let m := Demo.model [div] in
  in_demo dispatch m 11 0%nat div (initial_state m)
  = (inr (OpTorch "true_divide"), initial_state m).
Proof.
  intros div m.
  destruct (in_demo X16_first_sub_div_generic m 11 div [] div)
    as [_ H]; [reflexivity | reflexivity | discriminate |].
  exact (H eq_refl).
Defined.

Lemma X17_witness :
  let mm := Demo.node "MatMul" ["x"; "W"] ["mm"] in
  let add := Demo.node "Add" ["mm"; "b"] ["y"] in
  let m := Demo.model [mm; add] in
  let m' := {| graph_node := st_nodes (final (in_demo convert_operations m));
               graph_initializer := graph_initializer m;
               opset_import := opset_import m |} in
  status (in_demo convert_operations m) = Done
  /\ status (in_demo convert_operations m') = Raised (IndexError AtGraphNode).
Proof.
  intros mm add m m'.
  destruct (X17_second_pass_after_fusion string Demo.extract_attributes
              Demo.convert_layer Demo.convert_linear_layer
              Demo.convert_batch_norm_layer Demo.convert_instance_norm_layer
              Demo.torch_has m 0 mm add Demo.W [] 2%nat 3%nat Demo.b []
              "mm" "y" [] 11 [])
    as (Hdone & _ & _ & Hsecond); [reflexivity..|].
  split; [exact Hdone|]. unfold m'. rewrite Hsecond. reflexivity.
Defined.

Lemma X18_witness :
  let c := Demo.node "Constant" [] ["c"] in
  let s := Demo.state [c] in
  in_demo loop (Demo.model [c]) 11 1%nat 0%nat s
  = {| emitted := []; final := s; status := Raised (KeyError "constant") |}.
Proof.
  intros c s.
  apply (in_demo X18_constant_without_value (Demo.model [c]) 11 0%nat 0%nat s c ∅);
    reflexivity.
Defined.

Lemma X19_witness :
  let mm := Demo.node "MatMul" ["x"; "W"] ["mm"] in
  let add := Demo.node "Add" ["mm"; "b"] ["y"] in
  let add2 := Demo.node "Add" ["y"; "b"] ["z"] in
  let s := Demo.state [mm; add; add2] in
  let m := Demo.model (st_nodes s) in
  exists lin s',
    st_nodes s' = [Demo.node "MatMul" ["x"; "W"] ["y"]; add2]
    /\ in_demo loop m 11 3%nat 0%nat s
       = yield ("y", format_name "MatMul" "y",
                OpLinear (set_bias lin (to_array Demo.b)))
           (yield ("z", format_name "Add" "z",
                   OpModule "Add" {["feature_dim" := AInt (0 + 1)]})
              (in_demo loop m 11 1%nat 2%nat s')).
Proof.
  intros mm add add2 s m.
  destruct (in_demo X19_fusion_absorbs_one_add m 11 1%nat 0%nat s mm add add2
              Demo.W [] 2%nat 3%nat Demo.b [] "mm" "y" [] "z" [])
    as (lin & s' & _ & Hnodes & Hloop); [reflexivity..|].
  exists lin, s'. split; [exact Hnodes | exact Hloop].
Defined.

Lemma X20_witness :
  let n := Demo.node "Sigmoid" ["x"] ["y"; "unused"] in
  let m := Demo.model [n] in
  in_demo convert_operations m
  = {| emitted := [("y", "Sigmoid_y", OpModule "nn.Sigmoid" ∅)];
       final := Demo.state [n]; status := Done |}.
Proof.
  intros n m.
  destruct (in_demo X20_single_node_triple m n 11 [] "y" ["unused"])
    as [Hok _]; [reflexivity..|].
  destruct (Hok (OpModule "nn.Sigmoid" ∅) (Demo.state [n]) eq_refl) as [_ H].
  exact H.
Defined.
